(** * State Mesh: ingestion, storage and cross-chain aggregation

    A shallow embedding of the Go packages [pkg/types], [internal/storage],
    [pkg/cosmos], [internal/ingester], [internal/listener] and
    [internal/graphql], with the properties of the ingestion and
    aggregation pipeline stated over it.

    Conventions.
    - Go's [int64] heights and Unix times are [Z]; no arithmetic is done on
      them, so no wrap-around appears.
    - A Go [error] is its message; [(T, error)] results are [result T].
    - A pointer that may be [nil] is an [option].
    - SQL tables with a [UNIQUE] constraint are finite maps keyed by the
      constrained columns.
    - Log output is a trace of [LogEntry] values returned next to the state. *)

From Stdlib Require Import ZArith.
From stdpp Require Import gmap strings list fin_maps sorting pretty.

Open Scope string_scope.
Open Scope list_scope.
Open Scope Z_scope.

(** ** Errors and results *)

Definition error := string.

Inductive result (A : Type) : Type :=
| Ok (a : A)
| Err (e : error).
Arguments Ok {A} a.
Arguments Err {A} e.

Definition is_ok {A} (r : result A) : bool :=
  match r with Ok _ => true | Err _ => false end.

Definition is_err {A} (r : result A) : bool :=
  match r with Ok _ => false | Err _ => true end.

(** [fmt.Errorf("<msg>: %w", err)] *)
Definition wrap (msg : string) (e : error) : error := msg +:+ ": " +:+ e.

(** A call that may panic instead of returning. *)
Inductive outcome (A : Type) : Type :=
| Returns (a : A)
| Panics (msg : string).
Arguments Returns {A} a.
Arguments Panics {A} msg.

(** Dereferencing a Go pointer. *)
Definition deref {A} (p : option A) : outcome A :=
  match p with
  | Some a => Returns a
  | None => Panics "invalid memory address or nil pointer dereference"
  end.

(** ** Logging (zap) *)

Inductive Level := Debug | Info | Warn | Error.

Inductive Field :=
| zapString (k v : string)
| zapInt64 (k : string) (v : Z)
| zapInt (k : string) (v : Z)
| zapBool (k : string) (v : bool)
| zapError (e : error).

Record LogEntry := { lvl : Level; msg : string; fields : list Field }.

(** ** pkg/types *)

Module Account.
Record t := {
  ChainName : string;
  Address : string;
  CreatedAt : Z;
  UpdatedAt : Z }.
End Account.

Module Balance.
Record t := {
  ChainName : string;
  Address : string;
  Denom : string;
  Amount : string;
  Height : Z;
  UpdatedAt : Z }.
End Balance.

Module Delegation.
Record t := {
  ChainName : string;
  DelegatorAddress : string;
  ValidatorAddress : string;
  Shares : string;
  Height : Z;
  UpdatedAt : Z }.
End Delegation.

Module ValidatorDescription.
Record t := {
  Moniker : string;
  Identity : string;
  Website : string;
  SecurityContact : string;
  Details : string }.
End ValidatorDescription.

Module ValidatorCommission.
Record t := {
  Rate : string;
  MaxRate : string;
  MaxChangeRate : string }.
End ValidatorCommission.

Module Validator.
Record t := {
  ChainName : string;
  OperatorAddress : string;
  ConsensusPubkey : string;
  Jailed : bool;
  Status : string;
  Tokens : string;
  DelegatorShares : string;
  Description : ValidatorDescription.t;
  UnbondingHeight : Z;
  UnbondingTime : Z;
  Commission : ValidatorCommission.t;
  MinSelfDelegation : string;
  Height : Z;
  UpdatedAt : Z }.
End Validator.

Module AccountState.
Record t := {
  ChainName : string;
  Address : string;
  Balances : list Balance.t;
  Delegations : list Delegation.t }.
End AccountState.

Module BalanceEvent.
Record t := {
  Timestamp : Z;
  ChainName : string;
  Address : string;
  Denom : string;
  Amount : string;
  PreviousAmount : string;
  ChangeType : string;
  Height : Z;
  TxHash : string }.
End BalanceEvent.

(** ** internal/storage: the PostgreSQL store

    The tables [accounts], [balances], [delegations] and [validators] of
    [migrations/postgres/001_initial_schema.sql], each keyed by the columns
    of its [UNIQUE] constraint. The surrogate [id] and [created_at] columns
    are never read back by the Go code and are left out. *)

Module Storage.

(** The statements the store sends to the database. *)
Inductive Stmt :=
| SelectAccount (chainName address : string)
| SelectBalances (chainName address : string)
| SelectDelegations (chainName delegatorAddress : string)
| BeginStmt
| InsertBalance (b : Balance.t)
| InsertDelegation (d : Delegation.t)
| InsertValidator (v : Validator.t)
| CommitStmt.

Record Tables := {
  accounts : gmap (string * string) Account.t;
  balances : gmap (string * string * string) Balance.t;
  delegations : gmap (string * string * string) Delegation.t;
  validators : gmap (string * string) Validator.t }.

(** [db] is the committed state; [fault st = Some e] says that the driver
    answers statement [st] with error [e] (connection loss, timeout,
    constraint violation); [clock] is the database's [NOW()]. *)
Record PostgresStore := {
  db : Tables;
  fault : Stmt -> option error;
  clock : Z }.

Definition with_db (s : PostgresStore) (t : Tables) : PostgresStore :=
  {| db := t; fault := fault s; clock := clock s |}.

Definition balance_key (b : Balance.t) : string * string * string :=
  (Balance.ChainName b, Balance.Address b, Balance.Denom b).

Definition delegation_key (d : Delegation.t) : string * string * string :=
  (Delegation.ChainName d, Delegation.DelegatorAddress d,
   Delegation.ValidatorAddress d).

Definition validator_key (v : Validator.t) : string * string :=
  (Validator.ChainName v, Validator.OperatorAddress v).

(** The [BEFORE UPDATE] trigger [update_updated_at_column]. *)
Definition touch_balance (now : Z) (b : Balance.t) : Balance.t :=
  {| Balance.ChainName := Balance.ChainName b;
     Balance.Address := Balance.Address b;
     Balance.Denom := Balance.Denom b;
     Balance.Amount := Balance.Amount b;
     Balance.Height := Balance.Height b;
     Balance.UpdatedAt := now |}.

Definition touch_delegation (now : Z) (d : Delegation.t) : Delegation.t :=
  {| Delegation.ChainName := Delegation.ChainName d;
     Delegation.DelegatorAddress := Delegation.DelegatorAddress d;
     Delegation.ValidatorAddress := Delegation.ValidatorAddress d;
     Delegation.Shares := Delegation.Shares d;
     Delegation.Height := Delegation.Height d;
     Delegation.UpdatedAt := now |}.

Definition touch_validator (now : Z) (v : Validator.t) : Validator.t :=
  {| Validator.ChainName := Validator.ChainName v;
     Validator.OperatorAddress := Validator.OperatorAddress v;
     Validator.ConsensusPubkey := Validator.ConsensusPubkey v;
     Validator.Jailed := Validator.Jailed v;
     Validator.Status := Validator.Status v;
     Validator.Tokens := Validator.Tokens v;
     Validator.DelegatorShares := Validator.DelegatorShares v;
     Validator.Description := Validator.Description v;
     Validator.UnbondingHeight := Validator.UnbondingHeight v;
     Validator.UnbondingTime := Validator.UnbondingTime v;
     Validator.Commission := Validator.Commission v;
     Validator.MinSelfDelegation := Validator.MinSelfDelegation v;
     Validator.Height := Validator.Height v;
     Validator.UpdatedAt := now |}.

(** [INSERT INTO balances ... ON CONFLICT (chain_name, address, denom)
    DO UPDATE SET amount = EXCLUDED.amount, height = EXCLUDED.height,
    updated_at = EXCLUDED.updated_at]: a fresh key stores the row as
    given; a conflicting key takes every non-key column from the incoming
    row, after which the update trigger stamps [updated_at]. The
    statement has no [WHERE] clause on the stored height. *)
Definition upsert_balance_row (now : Z) (b : Balance.t)
    (t : gmap (string * string * string) Balance.t)
    : gmap (string * string * string) Balance.t :=
  match t !! balance_key b with
  | None => <[balance_key b := b]> t
  | Some _ => <[balance_key b := touch_balance now b]> t
  end.

Definition upsert_delegation_row (now : Z) (d : Delegation.t)
    (t : gmap (string * string * string) Delegation.t)
    : gmap (string * string * string) Delegation.t :=
  match t !! delegation_key d with
  | None => <[delegation_key d := d]> t
  | Some _ => <[delegation_key d := touch_delegation now d]> t
  end.

Definition upsert_validator_row (now : Z) (v : Validator.t)
    (t : gmap (string * string) Validator.t)
    : gmap (string * string) Validator.t :=
  match t !! validator_key v with
  | None => <[validator_key v := v]> t
  | Some _ => <[validator_key v := touch_validator now v]> t
  end.

(** The effect of one write statement on the tables. *)
Definition exec (now : Z) (st : Stmt) (t : Tables) : Tables :=
  match st with
  | InsertBalance b =>
      {| accounts := accounts t;
         balances := upsert_balance_row now b (balances t);
         delegations := delegations t;
         validators := validators t |}
  | InsertDelegation d =>
      {| accounts := accounts t;
         balances := balances t;
         delegations := upsert_delegation_row now d (delegations t);
         validators := validators t |}
  | InsertValidator v =>
      {| accounts := accounts t;
         balances := balances t;
         delegations := delegations t;
         validators := upsert_validator_row now v (validators t) |}
  | _ => t
  end.

(** [PostgresTx]: the statements executed inside the transaction so far.
    They reach the tables when the transaction commits. *)
Record PostgresTx := { pending : list Stmt }.

Definition BeginTx (s : PostgresStore) : result PostgresTx :=
  match fault s BeginStmt with
  | Some e => Err e
  | None => Ok {| pending := [] |}
  end.

(** [tx.tx.ExecContext]: the statement joins the transaction unless the
    driver reports an error. *)
Definition ExecContext (s : PostgresStore) (tx : PostgresTx) (st : Stmt)
    : result PostgresTx :=
  match fault s st with
  | Some e => Err e
  | None => Ok {| pending := pending tx ++ [st] |}
  end.

Definition UpsertBalance (s : PostgresStore) (tx : PostgresTx)
    (balance : Balance.t) : result PostgresTx :=
  ExecContext s tx (InsertBalance balance).

Definition UpsertDelegation (s : PostgresStore) (tx : PostgresTx)
    (delegation : Delegation.t) : result PostgresTx :=
  ExecContext s tx (InsertDelegation delegation).

Definition UpsertValidator (s : PostgresStore) (tx : PostgresTx)
    (validator : Validator.t) : result PostgresTx :=
  ExecContext s tx (InsertValidator validator).

(** [tx.Commit()]: the pending statements are applied in order. *)
Definition Commit (s : PostgresStore) (tx : PostgresTx)
    : PostgresStore * option error :=
  match fault s CommitStmt with
  | Some e => (s, Some e)
  | None => (with_db s (foldl (fun t st => exec (clock s) st t) (db s) (pending tx)), None)
  end.

(** [tx.Rollback()]: the pending statements are discarded. *)
Definition Rollback (s : PostgresStore) (tx : PostgresTx) : PostgresStore := s.

(** [QueryRowContext(...).Scan(...)] for the single-row account query. *)
Inductive RowResult (A : Type) :=
| Row (a : A)
| ErrNoRows
| ScanErr (e : error).
Arguments Row {A} a.
Arguments ErrNoRows {A}.
Arguments ScanErr {A} e.

Definition QueryRowAccount (s : PostgresStore) (chainName address : string)
    : RowResult Account.t :=
  match fault s (SelectAccount chainName address) with
  | Some e => ScanErr e
  | None =>
      match accounts (db s) !! (chainName, address) with
      | Some a => Row a
      | None => ErrNoRows
      end
  end.

(** [GetAccount] returns an account pointer and an error: the pointer is
    an [option], [None] for [nil]; the error is an [option error]. *)
Definition GetAccount (s : PostgresStore) (chainName address : string)
    : option Account.t * option error :=
  match QueryRowAccount s chainName address with
  | ErrNoRows => (None, None)
  | ScanErr e => (None, Some (wrap "failed to get account" e))
  | Row account => (Some account, None)
  end.

(** [WHERE chain_name = $1 AND address = $2 ORDER BY denom]; the order is
    the byte-wise order of the denominations. *)
Definition GetBalances (s : PostgresStore) (chainName address : string)
    : result (list Balance.t) :=
  match fault s (SelectBalances chainName address) with
  | Some e => Err (wrap "failed to query balances" e)
  | None =>
      Ok (merge_sort
            (fun a b : Balance.t => String.leb (Balance.Denom a) (Balance.Denom b))
            (filter (fun b : Balance.t =>
                       Balance.ChainName b = chainName /\ Balance.Address b = address)
                    (snd <$> map_to_list (balances (db s)))))
  end.

(** [WHERE chain_name = $1 AND delegator_address = $2
    ORDER BY validator_address]. *)
Definition GetDelegations (s : PostgresStore) (chainName delegatorAddress : string)
    : result (list Delegation.t) :=
  match fault s (SelectDelegations chainName delegatorAddress) with
  | Some e => Err (wrap "failed to query delegations" e)
  | None =>
      Ok (merge_sort
            (fun a b : Delegation.t =>
               String.leb (Delegation.ValidatorAddress a) (Delegation.ValidatorAddress b))
            (filter (fun d : Delegation.t =>
                       Delegation.ChainName d = chainName
                       /\ Delegation.DelegatorAddress d = delegatorAddress)
                    (snd <$> map_to_list (delegations (db s)))))
  end.



End Storage.

(** ** internal/storage: the manager *)

Module ClickHouseStore.
(** The ClickHouse store is not among the source files. The resolver only
tests it against nil and calls its [GetBalanceHistory], which is taken
as a parameter: a field that ranges over every behaviour of the
analytics store. *)
Record t := {
  GetBalanceHistory :
    string -> string -> string -> Z -> result (list BalanceEvent.t) }.
End ClickHouseStore.

Module Manager.
Record t := {
  postgres : Storage.PostgresStore;
  clickhouse : option ClickHouseStore.t }.

Definition Postgres (m : t) : Storage.PostgresStore := postgres m.
Definition ClickHouse (m : t) : option ClickHouseStore.t := clickhouse m.

Definition with_postgres (m : t) (s : Storage.PostgresStore) : t :=
  {| postgres := s; clickhouse := clickhouse m |}.

(** [storage.Tx] wraps the PostgreSQL transaction. *)
Record Tx := { tx_postgres : Storage.PostgresTx }.

Definition BeginTx (m : t) : result Tx :=
  match Storage.BeginTx (postgres m) with
  | Err e => Err (wrap "failed to begin PostgreSQL transaction" e)
  | Ok pgTx => Ok {| tx_postgres := pgTx |}
  end.

Definition Commit (m : t) (tx : Tx) : t * option error :=
  let '(s, e) := Storage.Commit (postgres m) (tx_postgres tx) in
  (with_postgres m s, e).

Definition Rollback (m : t) (tx : Tx) : t :=
  with_postgres m (Storage.Rollback (postgres m) (tx_postgres tx)).
End Manager.

(** ** pkg/cosmos: the chain client

    The gRPC answers of the chain are fields of the client; they are taken
    as fixed for the duration of one polling cycle. The SDK's validator is
    kept with the fields the ingester reads, the ones it renders with
    [String()] already rendered. *)

Module StakingValidator.
Record t := {
  OperatorAddress : string;
  ConsensusPubkey : string;
  Jailed : bool;
  Status : string;
  Tokens : string;
  DelegatorShares : string;
  Description : ValidatorDescription.t;
  UnbondingHeight : Z;
  UnbondingTime : Z;
  Commission : ValidatorCommission.t;
  MinSelfDelegation : string }.
End StakingValidator.

Module Coin.
Record t := { Denom : string; Amount : Z }.
Definition IsZero (c : t) : bool := Amount c =? 0.
Definition String (c : t) : string := pretty (Amount c) +:+ Denom c.
End Coin.

Module GovProposal.
Record t := { ProposalId : Z }.
End GovProposal.

Module Client.
Record t := {
  chainName : string;
  stakingValidators : string -> result (list StakingValidator.t);
  govProposals : Z -> result (list GovProposal.t);
  bankTotalSupply : string -> result Coin.t }.

Definition GetValidators (c : t) (status : string)
    : result (list StakingValidator.t) :=
  match stakingValidators c status with
  | Err e => Err (wrap "failed to get validators" e)
  | Ok vs => Ok vs
  end.

Definition GetProposals (c : t) (status : Z) : result (list GovProposal.t) :=
  match govProposals c status with
  | Err e => Err (wrap "failed to get proposals" e)
  | Ok ps => Ok ps
  end.

(** Called by the ingester with a denomination and read as one coin. *)
Definition GetTotalSupply (c : t) (denom : string) : result Coin.t :=
  match bankTotalSupply c denom with
  | Err e => Err (wrap "failed to get total supply" e)
  | Ok s => Ok s
  end.

Definition GetLatestHeight (c : t) : result Z :=
  match GetValidators c "" with
  | Err e => Err (wrap "failed to get latest height" e)
  | Ok validators =>
      match validators with
      | [] => Err "no validators found"
      | v0 :: _ => Ok (StakingValidator.UnbondingHeight v0)
      end
  end.

End Client.

(** ** internal/ingester: the polling worker *)

Module ChainConfig.
Record t := {
  Name : string;
  ChainID : string;
  GRPCEndpoint : string;
  RESTEndpoint : string;
  Modules : list string;
  Enabled : bool }.
End ChainConfig.

Module Ingester.

Record ChainWorker := {
  chainName : string;
  chainCfg : ChainConfig.t;
  client : Client.t }.

(** What a method of the worker leaves behind: the storage manager, the
    log lines written, and the returned error. *)
Definition effect : Type := Manager.t * list LogEntry * option error.

Definition ingestBankModule (w : ChainWorker) (m : Manager.t) (height : Z)
    : effect :=
  match Client.GetTotalSupply (client w) "uatom" with
  | Err e => (m, [], Some (wrap "failed to get total supply" e))
  | Ok supply =>
      if negb (Coin.IsZero supply)
      then (m, [ {| lvl := Debug; msg := "Bank module state";
                    fields := [zapString "supply" (Coin.String supply);
                               zapInt64 "height" height] |} ], None)
      else (m, [], None)
  end.

(** The record built for one validator of the chain's answer. *)
Definition toValidator (w : ChainWorker) (height now : Z)
    (val : StakingValidator.t) : Validator.t :=
  {| Validator.ChainName := chainName w;
     Validator.OperatorAddress := StakingValidator.OperatorAddress val;
     Validator.ConsensusPubkey := StakingValidator.ConsensusPubkey val;
     Validator.Jailed := StakingValidator.Jailed val;
     Validator.Status := StakingValidator.Status val;
     Validator.Tokens := StakingValidator.Tokens val;
     Validator.DelegatorShares := StakingValidator.DelegatorShares val;
     Validator.Description :=
       {| ValidatorDescription.Moniker :=
            ValidatorDescription.Moniker (StakingValidator.Description val);
          ValidatorDescription.Identity :=
            ValidatorDescription.Identity (StakingValidator.Description val);
          ValidatorDescription.Website :=
            ValidatorDescription.Website (StakingValidator.Description val);
          ValidatorDescription.SecurityContact :=
            ValidatorDescription.SecurityContact (StakingValidator.Description val);
          ValidatorDescription.Details :=
            ValidatorDescription.Details (StakingValidator.Description val) |};
     Validator.UnbondingHeight := StakingValidator.UnbondingHeight val;
     Validator.UnbondingTime := StakingValidator.UnbondingTime val;
     Validator.Commission :=
       {| ValidatorCommission.Rate :=
            ValidatorCommission.Rate (StakingValidator.Commission val);
          ValidatorCommission.MaxRate :=
            ValidatorCommission.MaxRate (StakingValidator.Commission val);
          ValidatorCommission.MaxChangeRate :=
            ValidatorCommission.MaxChangeRate (StakingValidator.Commission val) |};
     Validator.MinSelfDelegation := StakingValidator.MinSelfDelegation val;
     Validator.Height := height;
     Validator.UpdatedAt := now |}.

(** The [for _, val := range validators] loop of [ingestStakingModule]:
    every validator is upserted inside [tx]; the first failing upsert
    ends the loop with its error. *)
Fixpoint upsertValidators (w : ChainWorker) (s : Storage.PostgresStore)
    (height now : Z) (validators : list StakingValidator.t)
    (tx : Storage.PostgresTx) : result Storage.PostgresTx :=
  match validators with
  | [] => Ok tx
  | val :: rest =>
      match Storage.UpsertValidator s tx (toValidator w height now val) with
      | Err e => Err (wrap "failed to upsert validator" e)
      | Ok tx' => upsertValidators w s height now rest tx'
      end
  end.

(** [ingestStakingModule] opens a transaction of its own, writes the
    validators into it and commits it; [now] is its [time.Now()]. *)
Definition ingestStakingModule (w : ChainWorker) (m : Manager.t)
    (height now : Z) : effect :=
  match Client.GetValidators (client w) "" with
  | Err e => (m, [], Some (wrap "failed to get validators" e))
  | Ok validators =>
      match Manager.BeginTx m with
      | Err e => (m, [], Some (wrap "failed to begin transaction" e))
      | Ok tx =>
          match upsertValidators w (Manager.Postgres m) height now validators
                  (Manager.tx_postgres tx) with
          | Err e => (Manager.Rollback m tx, [], Some e)
          | Ok pgTx =>
              match Manager.Commit m {| Manager.tx_postgres := pgTx |} with
              | (m', Some e) =>
                  (Manager.Rollback m' {| Manager.tx_postgres := pgTx |}, [],
                   Some (wrap "failed to commit transaction" e))
              | (m', None) =>
                  (m', [ {| lvl := Debug; msg := "Staking module state ingested";
                            fields := [zapInt "validators" (Z.of_nat (length validators));
                                       zapInt64 "height" height] |} ], None)
              end
          end
      end
  end.

Definition ingestDistributionModule (w : ChainWorker) (m : Manager.t)
    (height : Z) : effect :=
  (m, [ {| lvl := Debug; msg := "Distribution module state ingested";
           fields := [zapInt64 "height" height] |} ], None).

Definition ingestGovernanceModule (w : ChainWorker) (m : Manager.t)
    (height : Z) : effect :=
  match Client.GetProposals (client w) 0 with
  | Err e => (m, [], Some (wrap "failed to get proposals" e))
  | Ok proposals =>
      (m, [ {| lvl := Debug; msg := "Governance module state ingested";
               fields := [zapInt "proposals" (Z.of_nat (length proposals));
                          zapInt64 "height" height] |} ], None)
  end.

Definition ingestMintModule (w : ChainWorker) (m : Manager.t) (height : Z)
    : effect :=
  (m, [ {| lvl := Debug; msg := "Mint module state ingested";
           fields := [zapInt64 "height" height] |} ], None).

Definition ingestSlashingModule (w : ChainWorker) (m : Manager.t) (height : Z)
    : effect :=
  (m, [ {| lvl := Debug; msg := "Slashing module state ingested";
           fields := [zapInt64 "height" height] |} ], None).

(** One arm of the [switch module]: the message logged when the arm
    fails and what the arm does; [None] for the [default] arm. *)
Definition ingestModule (w : ChainWorker) (m : Manager.t) (height now : Z)
    (module : string) : option (string * effect) :=
  if String.eqb module "bank" then
    Some ("Failed to ingest bank module", ingestBankModule w m height)
  else if String.eqb module "staking" then
    Some ("Failed to ingest staking module", ingestStakingModule w m height now)
  else if String.eqb module "distribution" then
    Some ("Failed to ingest distribution module", ingestDistributionModule w m height)
  else if String.eqb module "governance" then
    Some ("Failed to ingest governance module", ingestGovernanceModule w m height)
  else if String.eqb module "mint" then
    Some ("Failed to ingest mint module", ingestMintModule w m height)
  else if String.eqb module "slashing" then
    Some ("Failed to ingest slashing module", ingestSlashingModule w m height)
  else None.

(** The [for _, module := range w.chainCfg.Modules] loop: a module that
    returns an error is logged and the error is returned at once. *)
Fixpoint ingestModules (w : ChainWorker) (m : Manager.t) (height now : Z)
    (modules : list string) : effect :=
  match modules with
  | [] => (m, [], None)
  | module :: rest =>
      match ingestModule w m height now module with
      | None =>
          let '(m', logs, err) := ingestModules w m height now rest in
          (m', {| lvl := Debug; msg := "Unknown module";
                  fields := [zapString "chain" (chainName w);
                             zapString "module" module] |} :: logs, err)
      | Some (failure, (m1, logs1, Some e)) =>
          (m1, logs1 ++ [ {| lvl := Error; msg := failure;
                             fields := [zapString "chain" (chainName w);
                                        zapError e] |} ], Some e)
      | Some (_, (m1, logs1, None)) =>
          let '(m', logs, err) := ingestModules w m1 height now rest in
          (m', logs1 ++ logs, err)
      end
  end.

(** [ingestChainState]: one polling cycle. The transaction opened here is
    handed to no module; it is committed at the end with nothing in it,
    or rolled back by the [defer] when a module fails. *)
Definition ingestChainState (w : ChainWorker) (m : Manager.t) (now : Z)
    : effect :=
  let start := {| lvl := Debug; msg := "Ingesting chain state"; fields := [] |} in
  match Client.GetLatestHeight (client w) with
  | Err e => (m, [start], Some (wrap "failed to get latest height" e))
  | Ok height =>
      match Manager.BeginTx m with
      | Err e => (m, [start], Some (wrap "failed to begin transaction" e))
      | Ok tx =>
          match ingestModules w m height now (ChainConfig.Modules (chainCfg w)) with
          | (m1, logs, Some e) => (Manager.Rollback m1 tx, start :: logs, Some e)
          | (m1, logs, None) =>
              match Manager.Commit m1 tx with
              | (m2, Some e) =>
                  (Manager.Rollback m2 tx, start :: logs,
                   Some (wrap "failed to commit transaction" e))
              | (m2, None) => (m2, start :: logs, None)
              end
          end
      end
  end.

(** [nameSet := make(map[string]bool); for _, name := range names
    { nameSet[name] = true }] *)
Definition nameSet (names : list string) : gmap string bool :=
  foldl (fun set name => <[name := true]> set) ∅ names.

(** [nameSet[name]]: a missing key reads as [false]. *)
Definition inSet (set : gmap string bool) (name : string) : bool :=
  default false (set !! name).

(** [FilterChains]: the ingester's chains after the call. *)
Definition FilterChains (chains : list ChainConfig.t) (chainNames : list string)
    : list ChainConfig.t :=
  match chainNames with
  | [] => chains
  | _ :: _ =>
      let set := nameSet chainNames in
      List.filter (fun chain => inSet set (ChainConfig.Name chain)) chains
  end.

Definition withModules (chain : ChainConfig.t) (modules : list string)
    : ChainConfig.t :=
  {| ChainConfig.Name := ChainConfig.Name chain;
     ChainConfig.ChainID := ChainConfig.ChainID chain;
     ChainConfig.GRPCEndpoint := ChainConfig.GRPCEndpoint chain;
     ChainConfig.RESTEndpoint := ChainConfig.RESTEndpoint chain;
     ChainConfig.Modules := modules;
     ChainConfig.Enabled := ChainConfig.Enabled chain |}.

(** [FilterModules]: the ingester's chains after the call. *)
Definition FilterModules (chains : list ChainConfig.t) (moduleNames : list string)
    : list ChainConfig.t :=
  match moduleNames with
  | [] => chains
  | _ :: _ =>
      let set := nameSet moduleNames in
      List.map (fun chain =>
                  withModules chain
                    (List.filter (fun module => inSet set module)
                                 (ChainConfig.Modules chain)))
               chains
  end.

End Ingester.

(** ** internal/listener: the push path

    A buffered Go channel is its capacity and the queued elements, oldest
    first. *)

Module Chan.
Record t (A : Type) := { cap : Z; buf : list A }.
Arguments cap {A} _.
Arguments buf {A} _.

(** [make(chan A, n)] *)
Definition make {A} (n : Z) : t A := {| cap := n; buf := [] |}.

(** [len(ch) == cap(ch)] *)
Definition full {A} (ch : t A) : bool := cap ch <=? Z.of_nat (length (buf ch)).

(** [select { case ch <- x: ... default: ... }]: [None] when the send
    would block. *)
Definition trySend {A} (ch : t A) (x : A) : option (t A) :=
  if full ch then None else Some {| cap := cap ch; buf := buf ch ++ [x] |}.

(** [x := <-ch] on a channel that holds an element. *)
Definition tryRecv {A} (ch : t A) : option (A * t A) :=
  match buf ch with
  | [] => None
  | x :: rest => Some (x, {| cap := cap ch; buf := rest |})
  end.
End Chan.

Module Listener.

Record StateChange := {
  ChainName : string;
  StoreKey : string;
  Key : string;
  Value : string;
  Delete : bool;
  Height : Z;
  Timestamp : Z }.

Record ListenerWorker := {
  chainName : string;
  cfg : ChainConfig.t;
  changes : Chan.t StateChange }.

Record StateListener := {
  chains : list ChainConfig.t;
  stateChanges : Chan.t StateChange;
  workers : gmap string ListenerWorker }.

Definition NewStateListener (chains : list ChainConfig.t) : StateListener :=
  {| chains := chains;
     stateChanges := Chan.make 10000;
     workers := ∅ |}.

Definition createWorker (chainCfg : ChainConfig.t) : ListenerWorker :=
  {| chainName := ChainConfig.Name chainCfg;
     cfg := chainCfg;
     changes := Chan.make 1000 |}.

(** The worker registration of [Start], without the goroutines. *)
Definition Start (sl : StateListener) : StateListener :=
  {| chains := chains sl;
     stateChanges := stateChanges sl;
     workers :=
       foldl (fun ws chain =>
                if ChainConfig.Enabled chain
                then <[ChainConfig.Name chain := createWorker chain]> ws
                else ws)
             (workers sl) (chains sl) |}.

(** [OnStateChange]: the Go method returns nothing; the model returns the
    listener after the call and the log lines written. [now] is the
    [time.Now()] stamped on the change. *)
Definition OnStateChange (sl : StateListener) (chainName storeKey : string)
    (key value : string) (delete : bool) (height : Z) (now : Z)
    : StateListener * list LogEntry :=
  let change := {| ChainName := chainName; StoreKey := storeKey; Key := key;
                   Value := value; Delete := delete; Height := height;
                   Timestamp := now |} in
  match Chan.trySend (stateChanges sl) change with
  | Some ch =>
      ({| chains := chains sl; stateChanges := ch; workers := workers sl |}, [])
  | None =>
      (sl, [ {| lvl := Warn; msg := "State change channel full, dropping change";
                fields := [zapString "chain" chainName;
                           zapString "store" storeKey;
                           zapInt64 "height" height] |} ])
  end.

(** One turn of the [processStateChanges] loop: the oldest change is taken
    from the listener's channel and handed to its chain's worker. *)
Definition routeOne (sl : StateListener) : option (StateListener * list LogEntry) :=
  match Chan.tryRecv (stateChanges sl) with
  | None => None
  | Some (change, ch) =>
      match workers sl !! ChainName change with
      | None =>
          Some ({| chains := chains sl; stateChanges := ch; workers := workers sl |},
                [ {| lvl := Warn; msg := "No worker for chain";
                     fields := [zapString "chain" (ChainName change)] |} ])
      | Some worker =>
          match Chan.trySend (changes worker) change with
          | Some wch =>
              Some ({| chains := chains sl; stateChanges := ch;
                       workers :=
                         <[ChainName change :=
                             {| chainName := chainName worker; cfg := cfg worker;
                                changes := wch |}]> (workers sl) |}, [])
          | None =>
              Some ({| chains := chains sl; stateChanges := ch; workers := workers sl |},
                    [ {| lvl := Warn; msg := "Worker channel full";
                         fields := [zapString "chain" (ChainName change)] |} ])
          end
      end
  end.

(** The [processStateChanges] loop run for [n] turns, stopping early when
    the channel is empty. *)
Fixpoint routeN (n : nat) (sl : StateListener) : StateListener * list LogEntry :=
  match n with
  | O => (sl, [])
  | S n' =>
      match routeOne sl with
      | None => (sl, [])
      | Some (sl', logs) =>
          let '(sl'', logs') := routeN n' sl' in (sl'', logs ++ logs')
      end
  end.

(** [processStateChanges] until every queued change has been routed. *)
Definition processStateChanges (sl : StateListener) : StateListener * list LogEntry :=
  routeN (length (Chan.buf (stateChanges sl))) sl.

(** What processing one change leaves behind. *)
Definition effect : Type := Manager.t * list LogEntry * option error.

(** [lw.storage.Postgres().UpsertBalance(context.Background(), balance)]:
    a single statement outside any transaction, applied at once. *)
Definition upsertBalanceNow (m : Manager.t) (balance : Balance.t)
    : Manager.t * option error :=
  let s := Manager.Postgres m in
  match Storage.fault s (Storage.InsertBalance balance) with
  | Some e => (m, Some e)
  | None =>
      (Manager.with_postgres m
         (Storage.with_db s
            (Storage.exec (Storage.clock s) (Storage.InsertBalance balance)
                          (Storage.db s))), None)
  end.

(** [processBalanceChange]: the key is not parsed yet, [parts] is the
    empty slice. Publishing to the stream and to ClickHouse after the
    upsert only logs on failure and is outside this model. *)
Definition processBalanceChange (lw : ListenerWorker) (m : Manager.t)
    (change : StateChange) (keyRemainder : string) : effect :=
  let parts : list string := [] in
  match parts with
  | address :: denom :: _ =>
      let amount := if Delete change then "0" else Value change in
      let balance := {| Balance.ChainName := ChainName change;
                        Balance.Address := address;
                        Balance.Denom := denom;
                        Balance.Amount := amount;
                        Balance.Height := Height change;
                        Balance.UpdatedAt := Timestamp change |} in
      match upsertBalanceNow m balance with
      | (m', Some e) => (m', [], Some (wrap "failed to upsert balance" e))
      | (m', None) => (m', [], None)
      end
  | _ => (m, [], Some "invalid balance key format")
  end.

Definition processSupplyChange (lw : ListenerWorker) (m : Manager.t)
    (change : StateChange) (denom : string) : effect :=
  (m, [ {| lvl := Debug; msg := "Supply change detected";
           fields := [zapString "denom" denom;
                      zapInt64 "height" (Height change)] |} ], None).

(** [len(s) > n && s[:n] == p] *)
Definition hasPrefix (n : nat) (p s : string) : bool :=
  (n <? String.length s)%nat && String.eqb (String.substring 0 n s) p.

(** [s[n:]] *)
Definition dropPrefix (n : nat) (s : string) : string :=
  String.substring n (String.length s - n) s.

Definition processBankStateChange (lw : ListenerWorker) (m : Manager.t)
    (change : StateChange) : effect :=
  let keyStr := Key change in
  if hasPrefix 9 "balances/" keyStr
  then processBalanceChange lw m change (dropPrefix 9 keyStr)
  else if hasPrefix 7 "supply/" keyStr
  then processSupplyChange lw m change (dropPrefix 7 keyStr)
  else (m, [], None).

Definition processValidatorChange (lw : ListenerWorker) (m : Manager.t)
    (change : StateChange) (validatorAddr : string) : effect :=
  (m, [ {| lvl := Debug; msg := "Validator change detected";
           fields := [zapString "validator" validatorAddr;
                      zapInt64 "height" (Height change)] |} ], None).

Definition processDelegationChange (lw : ListenerWorker) (m : Manager.t)
    (change : StateChange) (keyRemainder : string) : effect :=
  (m, [ {| lvl := Debug; msg := "Delegation change detected";
           fields := [zapString "key" keyRemainder;
                      zapInt64 "height" (Height change)] |} ], None).

Definition processStakingStateChange (lw : ListenerWorker) (m : Manager.t)
    (change : StateChange) : effect :=
  let keyStr := Key change in
  if hasPrefix 11 "validators/" keyStr
  then processValidatorChange lw m change (dropPrefix 11 keyStr)
  else if hasPrefix 12 "delegations/" keyStr
  then processDelegationChange lw m change (dropPrefix 12 keyStr)
  else (m, [], None).

(** The four handlers that only log. *)
Definition processLogged (what : string) (m : Manager.t)
    (change : StateChange) : effect :=
  (m, [ {| lvl := Debug; msg := what;
           fields := [zapString "key" (Key change);
                      zapInt64 "height" (Height change)] |} ], None).

Definition processDistributionStateChange (lw : ListenerWorker) :=
  processLogged "Distribution state change".
Definition processGovernanceStateChange (lw : ListenerWorker) :=
  processLogged "Governance state change".
Definition processMintStateChange (lw : ListenerWorker) :=
  processLogged "Mint state change".
Definition processSlashingStateChange (lw : ListenerWorker) :=
  processLogged "Slashing state change".

Definition processing (change : StateChange) : LogEntry :=
  {| lvl := Debug; msg := "Processing state change";
     fields := [zapString "store" (StoreKey change);
                zapInt "key_len" (Z.of_nat (String.length (Key change)));
                zapInt "value_len" (Z.of_nat (String.length (Value change)));
                zapBool "delete" (Delete change);
                zapInt64 "height" (Height change)] |}.

(** The [switch change.StoreKey]. *)
Definition dispatch (lw : ListenerWorker) (m : Manager.t)
    (change : StateChange) : effect :=
  let storeKey := StoreKey change in
  if String.eqb storeKey "bank" then processBankStateChange lw m change
  else if String.eqb storeKey "staking" then processStakingStateChange lw m change
  else if String.eqb storeKey "distribution" then processDistributionStateChange lw m change
  else if String.eqb storeKey "gov" then processGovernanceStateChange lw m change
  else if String.eqb storeKey "mint" then processMintStateChange lw m change
  else if String.eqb storeKey "slashing" then processSlashingStateChange lw m change
  else (m, [ {| lvl := Debug; msg := "Unknown store key";
                fields := [zapString "store" storeKey] |} ], None).

Definition processStateChange (lw : ListenerWorker) (m : Manager.t)
    (change : StateChange) : effect :=
  let '(m', logs, err) := dispatch lw m change in
  (m', processing change :: logs, err).

Definition failed (change : StateChange) (e : error) : LogEntry :=
  {| lvl := Error; msg := "Failed to process state change";
     fields := [zapString "store" (StoreKey change);
                zapInt64 "height" (Height change);
                zapError e] |}.

(** The [for] loop of [ListenerWorker.start] over the changes it
    receives, in the order received, up to the moment cancellation is
    observed: a change whose processing fails is logged and the loop goes
    on with the next one. *)
Fixpoint receiveAll (lw : ListenerWorker) (m : Manager.t)
    (received : list StateChange) : Manager.t * list LogEntry :=
  match received with
  | [] => (m, [])
  | change :: rest =>
      match processStateChange lw m change with
      | (m1, logs1, Some e) =>
          let '(m', logs) := receiveAll lw m1 rest in
          (m', logs1 ++ failed change e :: logs)
      | (m1, logs1, None) =>
          let '(m', logs) := receiveAll lw m1 rest in
          (m', logs1 ++ logs)
      end
  end.

Definition start (lw : ListenerWorker) (m : Manager.t)
    (received : list StateChange) : Manager.t * list LogEntry :=
  let '(m', logs) := receiveAll lw m received in
  (m', {| lvl := Info; msg := "Starting listener worker"; fields := [] |}
         :: logs
         ++ [ {| lvl := Info; msg := "Listener worker stopping"; fields := [] |} ]).

End Listener.

(** ** internal/graphql: the query resolver *)

Module Graphql.

Record Resolver := { storage : Manager.t }.

Record ChainAccountState := {
  ChainName : string;
  AccountState : AccountState.t }.

Record DenomAmount := { Denom : string; Amount : string }.

(** [TotalRewards] is a [float64] built by adding [0.05] once per entry
    of [TotalDelegated]; it is kept as that number of hundredths. *)
Record CrossChainTotals := {
  TotalBalance : list DenomAmount;
  TotalDelegated : list DenomAmount;
  TotalUnbonding : list DenomAmount;
  TotalRewards : Z }.

Record CrossChainAccountState := {
  Address : string;
  Chains : list ChainAccountState;
  Totals : CrossChainTotals }.

Definition Account (r : Resolver) (address chain : string)
    : result AccountState.t * list LogEntry :=
  match Storage.GetBalances (Manager.Postgres (storage r)) chain address with
  | Err e =>
      (Err (wrap "failed to get balances" e),
       [ {| lvl := Error; msg := "Failed to get balances";
            fields := [zapString "address" address; zapString "chain" chain;
                       zapError e] |} ])
  | Ok balances =>
      match Storage.GetDelegations (Manager.Postgres (storage r)) chain address with
      | Err e =>
          (Err (wrap "failed to get delegations" e),
           [ {| lvl := Error; msg := "Failed to get delegations";
                fields := [zapString "address" address; zapString "chain" chain;
                           zapError e] |} ])
      | Ok delegations =>
          (Ok {| AccountState.ChainName := chain;
                 AccountState.Address := address;
                 AccountState.Balances := balances;
                 AccountState.Delegations := delegations |}, [])
      end
  end.

(** The locals of [CrossChainAccount] that its loop updates. *)
Record Locals := {
  chainStates : list ChainAccountState;
  totalBalanceMap : gmap string string;
  totalDelegatedMap : gmap string string }.

(** [if current, exists := totals[denom]; exists
      { totals[denom] = current + "+" + amount }
    else { totals[denom] = amount }] *)
Definition addAmount (denom amount : string) (totals : gmap string string)
    : gmap string string :=
  match totals !! denom with
  | Some current => <[denom := (current +:+ "+") +:+ amount]> totals
  | None => <[denom := amount]> totals
  end.

Definition addBalances (balances : list Balance.t) (totals : gmap string string)
    : gmap string string :=
  foldl (fun t balance => addAmount (Balance.Denom balance) (Balance.Amount balance) t)
        totals balances.

Definition addDelegations (delegations : list Delegation.t)
    (totals : gmap string string) : gmap string string :=
  foldl (fun t delegation => addAmount "stake" (Delegation.Shares delegation) t)
        totals delegations.

(** The part of the loop body after a successful fetch. *)
Definition addChain (chainName : string) (accountState : AccountState.t)
    (l : Locals) : Locals :=
  {| chainStates :=
       chainStates l ++ [ {| ChainName := chainName; AccountState := accountState |} ];
     totalBalanceMap :=
       addBalances (AccountState.Balances accountState) (totalBalanceMap l);
     totalDelegatedMap :=
       addDelegations (AccountState.Delegations accountState) (totalDelegatedMap l) |}.

(** [for _, chainName := range chains]: a chain whose fetch fails is
    logged and skipped by [continue]. *)
Fixpoint overChains (r : Resolver) (address : string) (chains : list string)
    (l : Locals) : Locals * list LogEntry :=
  match chains with
  | [] => (l, [])
  | chainName :: rest =>
      match Account r address chainName with
      | (Err e, logs1) =>
          let '(l', logs) := overChains r address rest l in
          (l', logs1 ++ {| lvl := Warn; msg := "Failed to get account state for chain";
                           fields := [zapString "address" address;
                                      zapString "chain" chainName;
                                      zapError e] |} :: logs)
      | (Ok accountState, logs1) =>
          let '(l', logs) := overChains r address rest (addChain chainName accountState l) in
          (l', logs1 ++ logs)
      end
  end.

(** [for denom, amount := range totals]: Go leaves the order of a map
    iteration unspecified; the entries are listed in the map's own order. *)
Definition toSlice (totals : gmap string string) : list DenomAmount :=
  (fun '(denom, amount) => {| Denom := denom; Amount := amount |})
    <$> map_to_list totals.

(** The body of [CrossChainAccount] for a given list of chains. *)
Definition crossChainAccountOf (r : Resolver) (address : string)
    (chains : list string) : result CrossChainAccountState * list LogEntry :=
  let '(l, logs) :=
    overChains r address chains
      {| chainStates := []; totalBalanceMap := ∅; totalDelegatedMap := ∅ |} in
  let totalBalance := toSlice (totalBalanceMap l) in
  let totalDelegated := toSlice (totalDelegatedMap l) in
  let totalRewards := 5 * Z.of_nat (length totalDelegated) in
  (Ok {| Address := address;
         Chains := chainStates l;
         Totals := {| TotalBalance := totalBalance;
                      TotalDelegated := totalDelegated;
                      TotalUnbonding := [];
                      TotalRewards := totalRewards |} |}, logs).

(** [chains := []string{"cosmoshub", "osmosis"} // TODO: Get from config] *)
Definition configuredChains : list string := ["cosmoshub"; "osmosis"].

Definition CrossChainAccount (r : Resolver) (address : string)
    : result CrossChainAccountState * list LogEntry :=
  crossChainAccountOf r address configuredChains.

(** The total reported for a denomination, if any. *)
Definition totalOf (denom : string) (totals : list DenomAmount) : option string :=
  match list_find (fun da => Denom da = denom) totals with
  | Some (_, da) => Some (Amount da)
  | None => None
  end.

(** [BalanceHistory]: [denom] and [limit] are optional arguments,
    passed as pointers. *)
Definition BalanceHistory (r : Resolver) (address chain : string)
    (denom : option string) (limit : option Z)
    : outcome (result (list BalanceEvent.t)) :=
  match Manager.ClickHouse (storage r) with
  | None => Returns (Err "ClickHouse not available for analytics queries")
  | Some clickhouse =>
      let limitVal :=
        match limit with
        | Some l => if 0 <? l then l else 100
        | None => 100
        end in
      match deref denom with
      | Panics p => Panics p
      | Returns d =>
          match ClickHouseStore.GetBalanceHistory clickhouse address d "cosmos" limitVal with
          | Err e => Returns (Err (wrap "failed to get balance history" e))
          | Ok events => Returns (Ok events)
          end
      end
  end.

Record ChainInfo := {
  Name : string;
  ChainID : string;
  Status : string;
  LatestHeight : Z;
  LatestTime : Z;
  UpdatedAt : Z }.

(** [Chains]: the two chains written into the resolver; [now] stands for
    its readings of [time.Now()]. *)
Definition ChainsQuery (r : Resolver) (now : Z) : result (list ChainInfo) :=
  Ok [ {| Name := "cosmoshub"; ChainID := "cosmoshub-4"; Status := "active";
          LatestHeight := 0; LatestTime := now; UpdatedAt := now |};
       {| Name := "osmosis"; ChainID := "osmosis-1"; Status := "active";
          LatestHeight := 0; LatestTime := now; UpdatedAt := now |} ].

(** [for _, chain := range chains { if chain.Name == name { return chain } }] *)
Fixpoint findChain (name : string) (chains : list ChainInfo) : option ChainInfo :=
  match chains with
  | [] => None
  | chain :: rest =>
      if String.eqb (Name chain) name then Some chain else findChain name rest
  end.

(** [Chain]: one chain by name. *)
Definition ChainQuery (r : Resolver) (now : Z) (name : string) : result ChainInfo :=
  match ChainsQuery r now with
  | Err e => Err e
  | Ok chains =>
      match findChain name chains with
      | Some chain => Ok chain
      | None => Err ("chain not found: " +:+ name)
      end
  end.

End Graphql.

(** ** internal/api: the REST handler *)

Module Api.

Record CrossChainTotals := {
  TotalBalance : gmap string string;
  TotalDelegated : gmap string string;
  TotalUnbonding : gmap string string;
  TotalRewards : gmap string string }.

Record CrossChainAccountState := {
  Address : string;
  Chains : gmap string AccountState.t;
  Totals : CrossChainTotals }.

(** [getCrossChainAccount]: the HTTP status and the JSON body. *)
Definition getCrossChainAccount (address : string) : Z * CrossChainAccountState :=
  (200, {| Address := address;
           Chains := ∅;
           Totals := {| TotalBalance := ∅; TotalDelegated := ∅;
                        TotalUnbonding := ∅; TotalRewards := ∅ |} |}).

(** A JSON answer of the REST server: the status and the body. *)
Inductive Body :=
| ErrorBody (message : string)
| BalancesBody (chain address : string) (balances : list Balance.t)
| DelegationsBody (chain address : string) (delegations : list Delegation.t)
| StateBody (state : AccountState.t).

Record Server := { storage : Manager.t }.

(** [getAccountBalances]: [address] is the path parameter, [chainName] the
    [chain] query parameter, empty when absent. *)
Definition getAccountBalances (s : Server) (address chainName : string)
    : Z * Body * list LogEntry :=
  if String.eqb chainName "" then
    (400, ErrorBody "chain parameter is required", [])
  else
    match Storage.GetBalances (Manager.Postgres (storage s)) chainName address with
    | Err e =>
        (500, ErrorBody "failed to get balances",
         [ {| lvl := Error; msg := "Failed to get balances";
              fields := [zapString "address" address; zapString "chain" chainName;
                         zapError e] |} ])
    | Ok balances => (200, BalancesBody chainName address balances, [])
    end.

Definition getAccountDelegations (s : Server) (address chainName : string)
    : Z * Body * list LogEntry :=
  if String.eqb chainName "" then
    (400, ErrorBody "chain parameter is required", [])
  else
    match Storage.GetDelegations (Manager.Postgres (storage s)) chainName address with
    | Err e =>
        (500, ErrorBody "failed to get delegations",
         [ {| lvl := Error; msg := "Failed to get delegations";
              fields := [zapString "address" address; zapString "chain" chainName;
                         zapError e] |} ])
    | Ok delegations => (200, DelegationsBody chainName address delegations, [])
    end.

Definition getAccountState (s : Server) (address chainName : string)
    : Z * Body * list LogEntry :=
  if String.eqb chainName "" then
    (400, ErrorBody "chain parameter is required", [])
  else
    match Storage.GetBalances (Manager.Postgres (storage s)) chainName address with
    | Err e =>
        (500, ErrorBody "failed to get account state",
         [ {| lvl := Error; msg := "Failed to get balances for account state";
              fields := [zapString "address" address; zapString "chain" chainName;
                         zapError e] |} ])
    | Ok balances =>
        match Storage.GetDelegations (Manager.Postgres (storage s)) chainName address with
        | Err e =>
            (500, ErrorBody "failed to get account state",
             [ {| lvl := Error; msg := "Failed to get delegations for account state";
                  fields := [zapString "address" address; zapString "chain" chainName;
                             zapError e] |} ])
        | Ok delegations =>
            (200, StateBody {| AccountState.ChainName := chainName;
                               AccountState.Address := address;
                               AccountState.Balances := balances;
                               AccountState.Delegations := delegations |}, [])
        end
    end.

End Api.

(** ** Units of work and scenario data *)

Module Work.
Import Storage.

(** Committing one balance: a transaction holding the single upsert. *)
Definition commitBalance (s : PostgresStore) (b : Balance.t)
    : PostgresStore * option error :=
  match BeginTx s with
  | Err e => (s, Some e)
  | Ok tx =>
      match UpsertBalance s tx b with
      | Err e => (Rollback s tx, Some e)
      | Ok tx' => Commit s tx'
      end
  end.



End Work.

Module Scenario.
Import Storage.

Definition noFault : Stmt -> option error := fun _ => None.

Definition emptyTables : Tables :=
  {| accounts := ∅; balances := ∅; delegations := ∅; validators := ∅ |}.

Definition emptyStore : PostgresStore :=
  {| db := emptyTables; fault := noFault; clock := 1700000000 |}.

Definition balanceOf (chain amount : string) (height : Z) : Balance.t :=
  {| Balance.ChainName := chain; Balance.Address := "addrX";
     Balance.Denom := "uatom"; Balance.Amount := amount;
     Balance.Height := height; Balance.UpdatedAt := 1699999999 |}.

Definition noDescription : ValidatorDescription.t :=
  {| ValidatorDescription.Moniker := "val"; ValidatorDescription.Identity := "";
     ValidatorDescription.Website := ""; ValidatorDescription.SecurityContact := "";
     ValidatorDescription.Details := "" |}.

Definition someCommission : ValidatorCommission.t :=
  {| ValidatorCommission.Rate := "0.05"; ValidatorCommission.MaxRate := "0.2";
     ValidatorCommission.MaxChangeRate := "0.01" |}.

Definition validatorOf (operator tokens : string) (height : Z) : Validator.t :=
  {| Validator.ChainName := "cosmoshub"; Validator.OperatorAddress := operator;
     Validator.ConsensusPubkey := "pk"; Validator.Jailed := false;
     Validator.Status := "BOND_STATUS_BONDED"; Validator.Tokens := tokens;
     Validator.DelegatorShares := tokens; Validator.Description := noDescription;
     Validator.UnbondingHeight := 0; Validator.UnbondingTime := 0;
     Validator.Commission := someCommission; Validator.MinSelfDelegation := "1";
     Validator.Height := height; Validator.UpdatedAt := 1699999999 |}.

Definition chainValidator (operator : string) (unbondingHeight : Z)
    : StakingValidator.t :=
  {| StakingValidator.OperatorAddress := operator;
     StakingValidator.ConsensusPubkey := "pk";
     StakingValidator.Jailed := false;
     StakingValidator.Status := "BOND_STATUS_BONDED";
     StakingValidator.Tokens := "1000";
     StakingValidator.DelegatorShares := "1000";
     StakingValidator.Description := noDescription;
     StakingValidator.UnbondingHeight := unbondingHeight;
     StakingValidator.UnbondingTime := 0;
     StakingValidator.Commission := someCommission;
     StakingValidator.MinSelfDelegation := "1" |}.

Definition emptyManager : Manager.t :=
  {| Manager.postgres := emptyStore; Manager.clickhouse := None |}.

Definition clientWith (vals : result (list StakingValidator.t))
    (props : result (list GovProposal.t)) : Client.t :=
  {| Client.chainName := "cosmoshub";
     Client.stakingValidators := fun _ => vals;
     Client.govProposals := fun _ => props;
     Client.bankTotalSupply :=
       fun denom => Ok {| Coin.Denom := denom; Coin.Amount := 1 |} |}.

Definition workerWith (modules : list string) (c : Client.t)
    : Ingester.ChainWorker :=
  {| Ingester.chainName := "cosmoshub";
     Ingester.chainCfg :=
       {| ChainConfig.Name := "cosmoshub"; ChainConfig.ChainID := "cosmoshub-4";
          ChainConfig.GRPCEndpoint := "localhost:9090";
          ChainConfig.RESTEndpoint := "localhost:1317";
          ChainConfig.Modules := modules; ChainConfig.Enabled := true |};
     Ingester.client := c |}.


Definition someChange (height : Z) : Listener.StateChange :=
  {| Listener.ChainName := "cosmoshub"; Listener.StoreKey := "bank";
     Listener.Key := "supply/uatom"; Listener.Value := "1";
     Listener.Delete := false; Listener.Height := height;
     Listener.Timestamp := 1700000000 |}.

(** A listener whose channel holds as many changes as its capacity. *)
Definition fullListener : Listener.StateListener :=
  {| Listener.chains := [];
     Listener.stateChanges :=
       {| Chan.cap := 10000; Chan.buf := repeat (someChange 100) (Z.to_nat 10000) |};
     Listener.workers := ∅ |}.
(** The store after [cosmoshub] committed [addrX/uatom = 1000000] at
    height 101 and [osmosis] committed [addrX/uatom = 2500000] at
    height 50. *)
Definition twoChainStore : PostgresStore :=
  fst (Work.commitBalance
         (fst (Work.commitBalance emptyStore (balanceOf "cosmoshub" "1000000" 101)))
         (balanceOf "osmosis" "2500000" 50)).

Definition twoChainResolver : Graphql.Resolver :=
  {| Graphql.storage :=
       {| Manager.postgres := twoChainStore; Manager.clickhouse := None |} |}.

(** A resolver whose database answers no query. *)
Definition downResolver : Graphql.Resolver :=
  {| Graphql.storage :=
       {| Manager.postgres :=
            {| db := emptyTables; fault := fun _ => Some "connection refused";
               clock := 1700000000 |};
          Manager.clickhouse := None |} |}.
(** An enabled chain of the configuration. *)
Definition hubConfig : ChainConfig.t :=
  {| ChainConfig.Name := "cosmoshub"; ChainConfig.ChainID := "cosmoshub-4";
     ChainConfig.GRPCEndpoint := "localhost:9090";
     ChainConfig.RESTEndpoint := "localhost:1317";
     ChainConfig.Modules := ["bank"; "staking"]; ChainConfig.Enabled := true |}.


End Scenario.

(** ** Vocabulary of the statements *)

(** The validators table behind a storage manager. *)
Definition validatorsOf (m : Manager.t) : gmap (string * string) Validator.t :=
  Storage.validators (Storage.db (Manager.postgres m)).

(** Every row of [t] is a row of [t0] or carries height [h]. *)
Definition old_or_at (h : Z) (t0 t : gmap (string * string) Validator.t) : Prop :=
  forall k v, t !! k = Some v -> t0 !! k = Some v \/ Validator.Height v = h.

(** The log line that opens the processing of a state change. *)
Definition isProcessing (l : LogEntry) : Prop := msg l = "Processing state change".

#[global] Instance isProcessing_dec (l : LogEntry) : Decision (isProcessing l).
Proof. unfold isProcessing. apply _. Defined.

(** [OnStateChange] called with the fields of [c]. *)
Definition notify (sl : Listener.StateListener) (c : Listener.StateChange)
    : Listener.StateListener * list LogEntry :=
  Listener.OnStateChange sl (Listener.ChainName c) (Listener.StoreKey c)
    (Listener.Key c) (Listener.Value c) (Listener.Delete c) (Listener.Height c)
    (Listener.Timestamp c).

(** A sequence of [OnStateChange] calls. *)
Definition feed (sl : Listener.StateListener) (cs : list Listener.StateChange)
    : Listener.StateListener :=
  foldl (fun sl c => fst (notify sl c)) sl cs.

(** The free slots of a channel. *)
Definition room {A} (ch : Chan.t A) : nat :=
  Z.to_nat (Chan.cap ch - Z.of_nat (length (Chan.buf ch))).

(** The chains of [chains] whose account state could be fetched, in order,
    each with its state. *)
Definition fetched (r : Graphql.Resolver) (address : string) (chains : list string)
    : list (string * AccountState.t) :=
  omap (fun c => match fst (Graphql.Account r address c) with
                 | Ok st => Some (c, st)
                 | Err _ => None
                 end) chains.

(** The chains whose fetch failed, in order, each with its error. *)
Definition unfetched (r : Graphql.Resolver) (address : string) (chains : list string)
    : list (string * error) :=
  omap (fun c => match fst (Graphql.Account r address c) with
                 | Ok _ => None
                 | Err e => Some (c, e)
                 end) chains.

(** The warning written for a chain that could not be fetched. *)
Definition fetchWarning (address : string) (ce : string * error) : LogEntry :=
  {| lvl := Warn; msg := "Failed to get account state for chain";
     fields := [zapString "address" address; zapString "chain" (fst ce);
                zapError (snd ce)] |}.

Definition isFetchWarning (l : LogEntry) : Prop :=
  msg l = "Failed to get account state for chain".

#[global] Instance isFetchWarning_dec (l : LogEntry) : Decision (isFetchWarning l).
Proof. unfold isFetchWarning. apply _. Defined.

(** The loop's locals after the fetched chains alone have been added. *)
Definition localsOf (states : list (string * AccountState.t)) : Graphql.Locals :=
  foldl (fun l cs => Graphql.addChain (fst cs) (snd cs) l)
        {| Graphql.chainStates := []; Graphql.totalBalanceMap := ∅;
           Graphql.totalDelegatedMap := ∅ |}
        states.

(** The module names that [ingestChainState] has an arm for. *)
Definition knownModules : list string :=
  ["bank"; "staking"; "distribution"; "governance"; "mint"; "slashing"].



(** Balances in the order of their denominations. *)
Definition byDenom (a b : Balance.t) : Prop :=
  String.leb (Balance.Denom a) (Balance.Denom b).

(** A channel that holds no more than its capacity. *)
Definition bounded {A} (ch : Chan.t A) : Prop :=
  Z.of_nat (length (Chan.buf ch)) <= Chan.cap ch.

(** A listener all of whose channels are within their capacity. *)
Definition wellFormed (sl : Listener.StateListener) : Prop :=
  bounded (Listener.stateChanges sl)
  /\ forall c w, Listener.workers sl !! c = Some w -> bounded (Listener.changes w).


(** The amounts held in denomination [denom] on the given chains, in the
    order of the chains and, within a chain, of its balances. *)
Definition amountsOf (denom : string) (states : list (string * AccountState.t))
    : list string :=
  states ≫= (fun cs =>
    Balance.Amount
      <$> filter (fun b => Balance.Denom b = denom) (AccountState.Balances (snd cs))).

(** One more amount joined to a running total by a plus sign. *)
Definition plusStep (total : option string) (amount : string) : option string :=
  Some (match total with
        | Some current => (current +:+ "+") +:+ amount
        | None => amount
        end).

(** The amounts joined by plus signs, [None] for no amount. *)
Definition plusJoin (amounts : list string) : option string :=
  foldl plusStep None amounts.


(** * Properties *)

(** ** Storage: upserts *)

Section Upsert.
Import Storage Work.





End Upsert.




(** ** Storage: reading an account *)

(** C10. [GetAccount] tells absence from failure: when no row is stored
    for (chain, address) and the query itself succeeds, the account and the
    error are both nil; and an error is returned exactly when the
    underlying query fails. *)
Theorem C10_GetAccount_absent_is_nil_nil :
  forall (s : Storage.PostgresStore) (chainName address : string),
    (Storage.accounts (Storage.db s) !! (chainName, address) = None ->
     Storage.fault s (Storage.SelectAccount chainName address) = None ->
     Storage.GetAccount s chainName address = (None, None))
    /\ (snd (Storage.GetAccount s chainName address) <> None
        <-> Storage.fault s (Storage.SelectAccount chainName address) <> None).
Proof.
  intros s chainName address.
  unfold Storage.GetAccount, Storage.QueryRowAccount.
  destruct (Storage.fault s (Storage.SelectAccount chainName address)) as [e|];
    simpl.
  - split; [discriminate|]. split; intros _; discriminate.
  - destruct (Storage.accounts (Storage.db s) !! (chainName, address)); simpl.
    + split; [discriminate|]. split; intros H; by destruct H.
    + split; [done|]. split; intros H; by destruct H.
Qed.

Lemma C10_GetAccount_absent_is_nil_nil_witness :
  Storage.GetAccount Scenario.emptyStore "cosmoshub" "addrX" = (None, None).
Proof.
  apply (proj1 (C10_GetAccount_absent_is_nil_nil Scenario.emptyStore "cosmoshub" "addrX"));
    reflexivity.
Defined.

(** ** The resolver: balance history *)

(** C8 (as stated, refuted). With no ClickHouse store configured, a call
    with a nil [denom] returns an error and does not panic. *)
Lemma C8_nil_denom_without_clickhouse_returns_error :
  Graphql.BalanceHistory {| Graphql.storage := Scenario.emptyManager |}
      "addrX" "cosmoshub" None None
  = Returns (Err "ClickHouse not available for analytics queries").
Proof. reflexivity. Qed.

(** C8 (amended). A call of [BalanceHistory] with a nil [denom] panics on
    the nil dereference whenever a ClickHouse store is configured, whatever
    the other arguments; with no ClickHouse store it returns the
    "not available" error before [denom] is looked at. *)
Theorem C8_nil_denom_panics_when_clickhouse_present :
  forall (r : Graphql.Resolver) (address chain : string) (limit : option Z),
    match Manager.ClickHouse (Graphql.storage r) with
    | Some _ =>
        Graphql.BalanceHistory r address chain None limit
        = Panics "invalid memory address or nil pointer dereference"
    | None =>
        Graphql.BalanceHistory r address chain None limit
        = Returns (Err "ClickHouse not available for analytics queries")
    end.
Proof.
  intros r address chain limit. unfold Graphql.BalanceHistory.
  destruct (Manager.ClickHouse (Graphql.storage r)); reflexivity.
Qed.

(** ** The polling cycle *)

Section Cycle.
Import Storage Ingester.

Lemma old_or_at_refl (h : Z) (t : gmap (string * string) Validator.t) :
  old_or_at h t t.
Proof. intros k v Hk. by left. Qed.

Lemma old_or_at_trans (h : Z) (t0 t1 t2 : gmap (string * string) Validator.t) :
  old_or_at h t0 t1 -> old_or_at h t1 t2 -> old_or_at h t0 t2.
Proof.
  intros H01 H12 k v Hk. destruct (H12 k v Hk) as [H1|]; [|by right].
  by apply H01.
Qed.

Lemma upsert_validator_row_old_or_at (h now : Z) (v : Validator.t)
    (t0 t : gmap (string * string) Validator.t) :
  Validator.Height v = h -> old_or_at h t0 t ->
  old_or_at h t0 (upsert_validator_row now v t).
Proof.
  intros Hv Ht k r. unfold upsert_validator_row.
  destruct (t !! validator_key v);
    (destruct (decide (validator_key v = k)) as [->|Hne];
     [rewrite lookup_insert_eq; intros [= <-]; by right
     |rewrite lookup_insert_ne by done; apply Ht]).
Qed.

Lemma upsertValidators_pending (w : ChainWorker) (s : PostgresStore)
    (h now : Z) (vs : list StakingValidator.t) :
  forall tx tx',
    upsertValidators w s h now vs tx = Ok tx' ->
    pending tx' = pending tx
                  ++ ((fun val => InsertValidator (toValidator w h now val)) <$> vs).
Proof.
  induction vs as [|val vs IH]; intros tx tx'; simpl.
  - intros [= <-]. by rewrite app_nil_r.
  - unfold UpsertValidator, ExecContext.
    destruct (fault s (InsertValidator (toValidator w h now val))); [done|].
    intros H. apply IH in H. rewrite H. simpl. by rewrite <- app_assoc.
Qed.

Lemma exec_validators_old_or_at (w : ChainWorker) (h now clk : Z)
    (vs : list StakingValidator.t) (t0 : gmap (string * string) Validator.t) :
  forall t : Tables,
    old_or_at h t0 (validators t) ->
    old_or_at h t0
      (validators
         (foldl (fun t st => exec clk st t) t
                ((fun val => InsertValidator (toValidator w h now val)) <$> vs))).
Proof.
  induction vs as [|val vs IH]; intros t Ht; simpl; [done|].
  apply IH. simpl. by apply upsert_validator_row_old_or_at.
Qed.

End Cycle.

Section CycleInvariant.
Import Storage Ingester.

Lemma ingestStakingModule_old_or_at (w : ChainWorker) (m m1 : Manager.t)
    (h now : Z) (logs : list LogEntry) (err : option error) :
  ingestStakingModule w m h now = (m1, logs, err) ->
  old_or_at h (validatorsOf m) (validatorsOf m1).
Proof.
  unfold ingestStakingModule.
  destruct (Client.GetValidators (client w) "") as [vs|e];
    [|intros [= <- _ _]; apply old_or_at_refl].
  unfold Manager.BeginTx, BeginTx.
  destruct (fault (Manager.postgres m) BeginStmt);
    [intros [= <- _ _]; apply old_or_at_refl|].
  simpl.
  destruct (upsertValidators w (Manager.Postgres m) h now vs {| pending := [] |})
    as [pgTx|e] eqn:Hups;
    [|intros [= <- _ _]; apply old_or_at_refl].
  apply upsertValidators_pending in Hups. simpl in Hups.
  unfold Manager.Commit, Commit. simpl.
  destruct (fault (Manager.postgres m) CommitStmt);
    intros [= <- _ _]; [apply old_or_at_refl|].
  unfold validatorsOf at 2. simpl. rewrite Hups.
  apply exec_validators_old_or_at, old_or_at_refl.
Qed.

Lemma ingestModule_old_or_at (w : ChainWorker) (m m1 : Manager.t) (h now : Z)
    (module failure : string) (logs : list LogEntry) (err : option error) :
  ingestModule w m h now module = Some (failure, (m1, logs, err)) ->
  old_or_at h (validatorsOf m) (validatorsOf m1).
Proof.
  unfold ingestModule.
  repeat (case_match; [intros [= _ Hmod]; revert Hmod|]); [..|done].
  - unfold ingestBankModule. repeat case_match; intros [= <- _ _]; apply old_or_at_refl.
  - apply ingestStakingModule_old_or_at.
  - intros <-; apply old_or_at_refl.
  - unfold ingestGovernanceModule. case_match; intros [= <- _ _]; apply old_or_at_refl.
  - intros <-; apply old_or_at_refl.
  - intros <-; apply old_or_at_refl.
Qed.

Lemma ingestModules_old_or_at (w : ChainWorker) (h now : Z) (modules : list string) :
  forall (m m' : Manager.t) (logs : list LogEntry) (err : option error),
    ingestModules w m h now modules = (m', logs, err) ->
    old_or_at h (validatorsOf m) (validatorsOf m').
Proof.
  induction modules as [|module rest IH]; intros m m' logs err; simpl.
  - intros [= <- _ _]. apply old_or_at_refl.
  - destruct (ingestModule w m h now module) as [[failure [[m1 logs1] [e|]]]|] eqn:Hmod.
    + intros [= <- _ _]. by eapply ingestModule_old_or_at.
    + destruct (ingestModules w m1 h now rest) as [[m2 logs2] err2] eqn:Hrest.
      intros [= <- _ _].
      eapply old_or_at_trans; [by eapply ingestModule_old_or_at|by eapply IH].
    + destruct (ingestModules w m h now rest) as [[m2 logs2] err2] eqn:Hrest.
      intros [= <- _ _]. by eapply IH.
Qed.

Lemma ingestChainState_old_or_at (w : ChainWorker) (m m' : Manager.t) (now h : Z)
    (logs : list LogEntry) (err : option error) :
  Client.GetLatestHeight (client w) = Ok h ->
  ingestChainState w m now = (m', logs, err) ->
  old_or_at h (validatorsOf m) (validatorsOf m').
Proof.
  intros Hh. unfold ingestChainState. rewrite Hh.
  unfold Manager.BeginTx, BeginTx.
  destruct (fault (Manager.postgres m) BeginStmt);
    [intros [= <- _ _]; apply old_or_at_refl|].
  destruct (ingestModules w m h now (ChainConfig.Modules (chainCfg w)))
    as [[m1 logs1] [e|]] eqn:Hmods.
  - intros [= <- _ _]. exact (ingestModules_old_or_at _ _ _ _ _ _ _ _ Hmods).
  - unfold Manager.Commit, Commit. simpl.
    destruct (fault (Manager.postgres m1) CommitStmt);
      intros [= <- _ _]; exact (ingestModules_old_or_at _ _ _ _ _ _ _ _ Hmods).
Qed.

End CycleInvariant.

(** C9. [GetLatestHeight] answers with the [UnbondingHeight] of the first
    validator of the chain's validator list, fails on an empty list (and
    when the list cannot be fetched), and this value is the height carried
    by every validator row that a polling cycle writes: after a cycle, a
    stored row is either a row that was there before or has the value
    returned by [GetLatestHeight] as its height. *)
Theorem C9_latest_height_is_first_unbonding_height :
  (forall c : Client.t,
      Client.GetLatestHeight c
      = match Client.stakingValidators c "" with
        | Ok (v0 :: _) => Ok (StakingValidator.UnbondingHeight v0)
        | Ok [] => Err "no validators found"
        | Err e =>
            Err (wrap "failed to get latest height" (wrap "failed to get validators" e))
        end)
  /\ (forall (w : Ingester.ChainWorker) (m m' : Manager.t) (now : Z)
             (logs : list LogEntry) (err : option error) k v,
        Ingester.ingestChainState w m now = (m', logs, err) ->
        validatorsOf m' !! k = Some v ->
        validatorsOf m !! k = Some v
        \/ Client.GetLatestHeight (Ingester.client w) = Ok (Validator.Height v)).
Proof.
  split.
  - intros c. unfold Client.GetLatestHeight, Client.GetValidators.
    destruct (Client.stakingValidators c "") as [[|v0 vs]|e]; reflexivity.
  - intros w m m' now logs err k v Hcycle Hk.
    destruct (Client.GetLatestHeight (Ingester.client w)) as [h|e] eqn:Hh.
    + destruct (ingestChainState_old_or_at w m m' now h logs err Hh Hcycle k v Hk)
        as [Hold| ->]; [by left|by right].
    + left. unfold Ingester.ingestChainState in Hcycle. rewrite Hh in Hcycle.
      by injection Hcycle as <- _ _.
Qed.

Lemma C9_latest_height_is_first_unbonding_height_witness :
  let w := Scenario.workerWith ["staking"]
             (Scenario.clientWith (Ok [Scenario.chainValidator "valoper1" 42]) (Ok [])) in
  let m' := fst (fst (Ingester.ingestChainState w Scenario.emptyManager 1700000001)) in
  let v := Ingester.toValidator w 42 1700000001 (Scenario.chainValidator "valoper1" 42) in
  validatorsOf m' !! ("cosmoshub", "valoper1") = Some v
  /\ (validatorsOf Scenario.emptyManager !! ("cosmoshub", "valoper1") = Some v
      \/ Client.GetLatestHeight (Ingester.client w) = Ok (Validator.Height v)).
Proof.
  intros w m' v. split; [vm_compute; reflexivity|].
  apply (proj2 C9_latest_height_is_first_unbonding_height w Scenario.emptyManager m'
           1700000001
           (snd (fst (Ingester.ingestChainState w Scenario.emptyManager 1700000001)))
           (snd (Ingester.ingestChainState w Scenario.emptyManager 1700000001))
           ("cosmoshub", "valoper1") v);
    vm_compute; reflexivity.
Defined.


(** ** Errors inside a cycle *)

Section Abort.
Import Storage Ingester.



End Abort.

Section Worker.
Import Listener.

Lemma filter_none {A} (P : A -> Prop) `{!forall x, Decision (P x)} (l : list A) :
  Forall (fun x => ~ P x) l -> filter P l = [].
Proof.
  induction 1 as [|x l Hx _ IH]; [done|].
  by rewrite filter_cons_False.
Qed.



End Worker.




(** ** The listener's queue *)

Section Queue.
Import Listener.

Lemma OnStateChange_full (sl : StateListener) (chainName storeKey key value : string)
    (delete : bool) (height now : Z) :
  Chan.full (stateChanges sl) = true ->
  OnStateChange sl chainName storeKey key value delete height now
  = (sl, [ {| lvl := Warn; msg := "State change channel full, dropping change";
              fields := [zapString "chain" chainName; zapString "store" storeKey;
                         zapInt64 "height" height] |} ]).
Proof. intros Hfull. unfold OnStateChange, Chan.trySend. by rewrite Hfull. Qed.

Lemma notify_buf (sl : StateListener) (c : StateChange) :
  Chan.buf (stateChanges (fst (notify sl c)))
  = Chan.buf (stateChanges sl) ++ take (room (stateChanges sl)) [c]
  /\ Chan.cap (stateChanges (fst (notify sl c))) = Chan.cap (stateChanges sl).
Proof.
  unfold notify, OnStateChange, Chan.trySend, Chan.full, room.
  destruct (Z.leb_spec (Chan.cap (stateChanges sl))
              (Z.of_nat (length (Chan.buf (stateChanges sl))))) as [Hle|Hlt]; simpl.
  - replace (Z.to_nat _) with 0%nat by lia. by rewrite app_nil_r.
  - destruct (Z.to_nat _) as [|n] eqn:Hn; [lia|].
    destruct c; simpl. by rewrite take_nil.
Qed.

Lemma feed_buf (cs : list StateChange) :
  forall sl : StateListener,
    Chan.buf (stateChanges (feed sl cs))
    = Chan.buf (stateChanges sl) ++ take (room (stateChanges sl)) cs
    /\ Chan.cap (stateChanges (feed sl cs)) = Chan.cap (stateChanges sl).
Proof.
  induction cs as [|c cs IH]; intros sl; simpl.
  - by rewrite take_nil, app_nil_r.
  - destruct (notify_buf sl c) as [Hbuf Hcap].
    destruct (IH (fst (notify sl c))) as [-> ->]. split; [|done].
    unfold room in *. rewrite Hcap, Hbuf, length_app.
    destruct (Z.to_nat (Chan.cap (stateChanges sl)
                        - Z.of_nat (length (Chan.buf (stateChanges sl)))))
      as [|n] eqn:Hn; simpl.
    + replace (Z.to_nat _) with 0%nat by lia. by rewrite take_0, !app_nil_r.
    + rewrite take_nil. simpl. rewrite <- app_assoc. simpl.
      do 3 f_equal. lia.
Qed.

End Queue.

Section Routing.
Import Listener.

Lemma routeN_S (n : nat) (sl sl' : StateListener) (logs : list LogEntry) :
  routeOne sl = Some (sl', logs) ->
  fst (routeN (S n) sl) = fst (routeN n sl').
Proof. intros H. simpl. rewrite H. by destruct (routeN n sl'). Qed.

Lemma routeN_worker (c : string) (n : nat) :
  forall (sl : StateListener) (lw : ListenerWorker),
    workers sl !! c = Some lw ->
    (length (Chan.buf (stateChanges sl)) <= n)%nat ->
    exists lw',
      workers (fst (routeN n sl)) !! c = Some lw'
      /\ Chan.cap (changes lw') = Chan.cap (changes lw)
      /\ Chan.buf (changes lw')
         = Chan.buf (changes lw)
           ++ take (room (changes lw))
                (filter (fun x => ChainName x = c) (Chan.buf (stateChanges sl))).
Proof.
  induction n as [|n IH]; intros sl lw Hlw Hlen.
  - exists lw. destruct (Chan.buf (stateChanges sl)); [|simpl in Hlen; lia].
    by rewrite filter_nil, take_nil, app_nil_r.
  - destruct (Chan.buf (stateChanges sl)) as [|x rest] eqn:Hbuf.
    { exists lw. simpl. unfold routeOne, Chan.tryRecv. rewrite Hbuf.
      by rewrite filter_nil, take_nil, app_nil_r. }
    simpl in Hlen.
    unfold room.
    destruct (workers sl !! ChainName x) as [wk|] eqn:Hwk.
    + destruct (Chan.full (changes wk)) eqn:Hfull.
      * (* the worker's channel is full: the change is dropped *)
        erewrite routeN_S; last first.
        { unfold routeOne, Chan.tryRecv, Chan.trySend.
          by rewrite Hbuf, Hwk, Hfull. }
        destruct (IH {| chains := chains sl;
                        stateChanges := {| Chan.cap := Chan.cap (stateChanges sl);
                                           Chan.buf := rest |};
                        workers := workers sl |} lw Hlw ltac:(simpl; lia))
          as (lw' & Hlw' & Hcap & Hbuf').
        exists lw'. split; [done|]. split; [done|]. rewrite Hbuf'. simpl.
        destruct (decide (ChainName x = c)) as [Hc|Hc].
        -- rewrite filter_cons_True by done.
           assert (wk = lw) as -> by congruence.
           unfold Chan.full in Hfull. apply Z.leb_le in Hfull.
           unfold room. replace (Z.to_nat _) with 0%nat by lia. done.
        -- by rewrite filter_cons_False.
      * (* the change joins the worker's channel *)
        erewrite routeN_S; last first.
        { unfold routeOne, Chan.tryRecv, Chan.trySend.
          by rewrite Hbuf, Hwk, Hfull. }
        destruct (decide (ChainName x = c)) as [Hc|Hc].
        -- assert (wk = lw) as -> by congruence.
           destruct (IH {| chains := chains sl;
                           stateChanges := {| Chan.cap := Chan.cap (stateChanges sl);
                                              Chan.buf := rest |};
                           workers :=
                             <[ChainName x :=
                                 {| chainName := chainName lw; cfg := cfg lw;
                                    changes :=
                                      {| Chan.cap := Chan.cap (changes lw);
                                         Chan.buf := Chan.buf (changes lw) ++ [x] |} |}]>
                               (workers sl) |}
                       {| chainName := chainName lw; cfg := cfg lw;
                          changes :=
                            {| Chan.cap := Chan.cap (changes lw);
                               Chan.buf := Chan.buf (changes lw) ++ [x] |} |}
                       ltac:(simpl; rewrite Hc; apply lookup_insert_eq)
                       ltac:(simpl; lia))
             as (lw' & Hlw' & Hcap & Hbuf').
           exists lw'. split; [done|]. split; [done|]. rewrite Hbuf'. simpl.
           rewrite filter_cons_True by done.
           unfold Chan.full in Hfull. apply Z.leb_gt in Hfull.
           unfold room. simpl. rewrite length_app. simpl.
           destruct (Z.to_nat (Chan.cap (changes lw)
                               - Z.of_nat (length (Chan.buf (changes lw)))))
             as [|r] eqn:Hr; [lia|].
           simpl. rewrite <- app_assoc. simpl. do 3 f_equal. lia.
        -- destruct (IH {| chains := chains sl;
                           stateChanges := {| Chan.cap := Chan.cap (stateChanges sl);
                                              Chan.buf := rest |};
                           workers :=
                             <[ChainName x :=
                                 {| chainName := chainName wk; cfg := cfg wk;
                                    changes :=
                                      {| Chan.cap := Chan.cap (changes wk);
                                         Chan.buf := Chan.buf (changes wk) ++ [x] |} |}]>
                               (workers sl) |}
                       lw
                       ltac:(simpl; by rewrite lookup_insert_ne)
                       ltac:(simpl; lia))
             as (lw' & Hlw' & Hcap & Hbuf').
           exists lw'. split; [done|]. split; [done|]. rewrite Hbuf'. simpl.
           by rewrite filter_cons_False.
    + (* no worker is registered for the change's chain *)
      erewrite routeN_S; last first.
      { unfold routeOne, Chan.tryRecv. by rewrite Hbuf, Hwk. }
      destruct (IH {| chains := chains sl;
                      stateChanges := {| Chan.cap := Chan.cap (stateChanges sl);
                                         Chan.buf := rest |};
                      workers := workers sl |} lw Hlw ltac:(simpl; lia))
        as (lw' & Hlw' & Hcap & Hbuf').
      exists lw'. split; [done|]. split; [done|]. rewrite Hbuf'. simpl.
      rewrite filter_cons_False; [done|]. congruence.
Qed.

End Routing.

(** C5 (as stated, refuted). [OnStateChange] on a listener whose channel
    is full leaves the listener exactly as it was and writes one warning:
    no function of the listener's state can have gone up by one, so no
    counter of dropped changes has been incremented. *)
Lemma C5_full_queue_increments_no_counter :
  let sl := Scenario.fullListener in
  let out := Listener.OnStateChange sl "cosmoshub" "bank" "supply/uatom" "2"
               false 101 1700000001 in
  Chan.full (Listener.stateChanges sl) = true
  /\ fst out = sl
  /\ ~ exists dropped : Listener.StateListener -> string -> nat,
         dropped (fst out) "cosmoshub" = S (dropped sl "cosmoshub").
Proof.
  intros sl out.
  assert (Chan.full (Listener.stateChanges sl) = true) as Hfull
    by (vm_compute; reflexivity).
  assert (fst out = sl) as Hout
    by (subst out; by rewrite OnStateChange_full).
  split; [done|]. split; [done|].
  intros [dropped Hd]. rewrite Hout in Hd. lia.
Qed.

(** C5 (amended). On a full channel [OnStateChange] does not block: the
    incoming change is dropped, a warning naming the chain is logged and the
    listener, its queue included, is unchanged; the method returns no value
    and keeps no count. Accepted changes leave in the order they arrived:
    after any sequence of calls the queue holds its former contents followed
    by the first calls that found room, in order; a receive takes the oldest
    change; and routing hands each chain's worker that chain's changes in
    queue order, as many as its own channel has room for. *)
Theorem C5_full_queue_drops_incoming_fifo :
  (forall (sl : Listener.StateListener) (chainName storeKey key value : string)
          (delete : bool) (height now : Z),
      Chan.full (Listener.stateChanges sl) = true ->
      Listener.OnStateChange sl chainName storeKey key value delete height now
      = (sl, [ {| lvl := Warn; msg := "State change channel full, dropping change";
                  fields := [zapString "chain" chainName; zapString "store" storeKey;
                             zapInt64 "height" height] |} ]))
  /\ (forall (sl : Listener.StateListener) (cs : list Listener.StateChange),
        Chan.buf (Listener.stateChanges (feed sl cs))
        = Chan.buf (Listener.stateChanges sl)
          ++ take (room (Listener.stateChanges sl)) cs
        /\ Chan.cap (Listener.stateChanges (feed sl cs))
           = Chan.cap (Listener.stateChanges sl))
  /\ (forall (ch : Chan.t Listener.StateChange) (x : Listener.StateChange)
             (rest : list Listener.StateChange),
        Chan.buf ch = x :: rest ->
        Chan.tryRecv ch = Some (x, {| Chan.cap := Chan.cap ch; Chan.buf := rest |}))
  /\ (forall (sl : Listener.StateListener) (c : string) (lw : Listener.ListenerWorker),
        Listener.workers sl !! c = Some lw ->
        exists lw',
          Listener.workers (fst (Listener.processStateChanges sl)) !! c = Some lw'
          /\ Chan.buf (Listener.changes lw')
             = Chan.buf (Listener.changes lw)
               ++ take (room (Listener.changes lw))
                    (filter (fun x => Listener.ChainName x = c)
                            (Chan.buf (Listener.stateChanges sl)))).
Proof.
  split; [|split; [|split]].
  - intros. by apply OnStateChange_full.
  - intros sl cs. apply feed_buf.
  - intros ch x rest Hbuf. unfold Chan.tryRecv. by rewrite Hbuf.
  - intros sl c lw Hlw. unfold Listener.processStateChanges.
    destruct (routeN_worker c _ sl lw Hlw (Nat.le_refl _)) as (lw' & H1 & _ & H2).
    eauto.
Qed.

Lemma C5_full_queue_drops_incoming_fifo_witness :
  Chan.full (Listener.stateChanges Scenario.fullListener) = true
  /\ Listener.OnStateChange Scenario.fullListener "cosmoshub" "bank" "supply/uatom" "2"
       false 101 1700000001
     = (Scenario.fullListener,
        [ {| lvl := Warn; msg := "State change channel full, dropping change";
             fields := [zapString "chain" "cosmoshub"; zapString "store" "bank";
                        zapInt64 "height" 101] |} ]).
Proof.
  assert (Chan.full (Listener.stateChanges Scenario.fullListener) = true) as Hfull
    by (vm_compute; reflexivity).
  split; [exact Hfull|].
  exact (proj1 C5_full_queue_drops_incoming_fifo Scenario.fullListener
           "cosmoshub" "bank" "supply/uatom" "2" false 101 1700000001 Hfull).
Defined.

(** ** Cross-chain aggregation *)

Section Aggregation.
Import Graphql.

Lemma Account_logs (r : Resolver) (address chain : string) :
  Forall (fun l => ~ isFetchWarning l) (snd (Account r address chain)).
Proof.
  unfold Account. repeat case_match; simpl; repeat constructor; discriminate.
Qed.

Lemma overChains_spec (r : Resolver) (address : string) (chains : list string) :
  forall l : Locals,
    fst (overChains r address chains l)
    = foldl (fun l cs => addChain (fst cs) (snd cs) l) l (fetched r address chains)
    /\ filter isFetchWarning (snd (overChains r address chains l))
       = fetchWarning address <$> unfetched r address chains.
Proof.
  induction chains as [|c chains IH]; intros l; simpl; [done|].
  pose proof (Account_logs r address c) as Hlogs.
  unfold fetched, unfetched. simpl.
  destruct (Account r address c) as [[st|e] logs1]; simpl in *.
  - destruct (IH (addChain c st l)) as [IH1 IH2].
    destruct (overChains r address chains (addChain c st l)) as [l' logs].
    simpl in *. split; [done|].
    by rewrite filter_app, (filter_none _ _ Hlogs).
  - destruct (IH l) as [IH1 IH2].
    destruct (overChains r address chains l) as [l' logs].
    simpl in *. split; [done|].
    rewrite filter_app, (filter_none _ _ Hlogs), filter_cons_True by done.
    simpl. by f_equal.
Qed.

Lemma localsOf_chainStates (states : list (string * AccountState.t)) :
  forall l : Locals,
    chainStates (foldl (fun l cs => addChain (fst cs) (snd cs) l) l states)
    = chainStates l
      ++ ((fun cs => {| ChainName := fst cs; AccountState := snd cs |}) <$> states).
Proof.
  induction states as [|[c st] states IH]; intros l; simpl.
  - by rewrite app_nil_r.
  - rewrite IH. simpl. by rewrite <- app_assoc.
Qed.

End Aggregation.

(** C4 (as stated, refuted). With a database that answers no query, neither
    configured chain can be read, and the call still succeeds, with no chain
    and no total. *)
Lemma C4_zero_reachable_chains_still_succeeds :
  is_err (fst (Graphql.Account Scenario.downResolver "addrX" "cosmoshub")) = true
  /\ is_err (fst (Graphql.Account Scenario.downResolver "addrX" "osmosis")) = true
  /\ fst (Graphql.CrossChainAccount Scenario.downResolver "addrX")
     = Ok {| Graphql.Address := "addrX";
             Graphql.Chains := [];
             Graphql.Totals := {| Graphql.TotalBalance := [];
                                  Graphql.TotalDelegated := [];
                                  Graphql.TotalUnbonding := [];
                                  Graphql.TotalRewards := 0 |} |}.
Proof. vm_compute. repeat split. Qed.

(** C4 (amended). The call succeeds for every request, also when no chain
    can be read. Its result lists exactly the chains whose fetch succeeded,
    in request order, each with its account state, and its totals are built
    from those chains alone. The result has no failure map: each chain that
    could not be fetched is reported by one warning in the log, in request
    order, and by nothing in the result. The REST handler answers every
    request with status 200 and empty maps. *)
Theorem C4_aggregation_always_succeeds :
  forall (r : Graphql.Resolver) (address : string) (chains : list string),
    (exists st logs,
        Graphql.crossChainAccountOf r address chains = (Ok st, logs)
        /\ Graphql.Address st = address
        /\ Graphql.Chains st
           = (fun cs => {| Graphql.ChainName := fst cs; Graphql.AccountState := snd cs |})
               <$> fetched r address chains
        /\ Graphql.TotalBalance (Graphql.Totals st)
           = Graphql.toSlice
               (Graphql.totalBalanceMap (localsOf (fetched r address chains)))
        /\ Graphql.TotalDelegated (Graphql.Totals st)
           = Graphql.toSlice
               (Graphql.totalDelegatedMap (localsOf (fetched r address chains)))
        /\ filter isFetchWarning logs
           = fetchWarning address <$> unfetched r address chains)
    /\ Graphql.CrossChainAccount r address
       = Graphql.crossChainAccountOf r address ["cosmoshub"; "osmosis"]
    /\ Api.getCrossChainAccount address
       = (200, {| Api.Address := address; Api.Chains := ∅;
                  Api.Totals := {| Api.TotalBalance := ∅; Api.TotalDelegated := ∅;
                                   Api.TotalUnbonding := ∅; Api.TotalRewards := ∅ |} |}).
Proof.
  intros r address chains. split; [|done].
  unfold Graphql.crossChainAccountOf.
  destruct (overChains_spec r address chains
              {| Graphql.chainStates := []; Graphql.totalBalanceMap := ∅;
                 Graphql.totalDelegatedMap := ∅ |}) as [Hl Hlogs].
  destruct (Graphql.overChains r address chains _) as [l logs]. simpl in *.
  eexists _, logs. split; [reflexivity|]. simpl.
  fold (localsOf (fetched r address chains)) in Hl. subst l.
  repeat split; try done.
  unfold localsOf. by rewrite localsOf_chainStates.
Qed.

(** C2 (the code at the failing input). [cosmoshub] holds
    [addrX/uatom = 1000000] committed at height 101 and [osmosis] holds
    [addrX/uatom = 2500000] committed at height 50. The total reported for
    [uatom] is the two amounts joined by a plus sign, not their sum. *)
Lemma C2_total_is_concatenated :
  match fst (Graphql.CrossChainAccount Scenario.twoChainResolver "addrX") with
  | Ok st =>
      Graphql.totalOf "uatom" (Graphql.TotalBalance (Graphql.Totals st))
      = Some "1000000+2500000"
      /\ Graphql.totalOf "uatom" (Graphql.TotalBalance (Graphql.Totals st))
         <> Some "3500000"
  | Err _ => False
  end.
Proof. vm_compute. split; [reflexivity|discriminate]. Qed.



(** * Further properties of the code *)

(** ** Filtering the configured chains and modules *)

Section Filters.
Import Ingester.

Lemma nameSet_lookup (names : list string) (n : string) :
  forall acc : gmap string bool,
    foldl (fun set name => <[name := true]> set) acc names !! n
    = if decide (n ∈ names) then Some true else acc !! n.
Proof.
  induction names as [|x names IH]; intros acc; cbn [foldl].
  - destruct (decide (n ∈ [])) as [Hin|]; [|done]. by apply elem_of_nil in Hin.
  - rewrite IH. destruct (decide (n ∈ names)) as [Hin|Hin].
    + by rewrite decide_True by (by right).
    + destruct (decide (x = n)) as [->|Hne].
      * rewrite decide_True by (by left). apply lookup_insert_eq.
      * rewrite decide_False by (intros [Heq|Hin']%elem_of_cons; congruence).
        by apply lookup_insert_ne.
Qed.

Lemma inSet_nameSet (names : list string) (n : string) :
  inSet (nameSet names) n = bool_decide (n ∈ names).
Proof.
  unfold inSet, nameSet. rewrite nameSet_lookup.
  destruct (decide (n ∈ names)).
  - by rewrite bool_decide_eq_true_2.
  - by rewrite bool_decide_eq_false_2.
Qed.

Lemma filter_inSet {A} (f : A -> string) (names : list string) (l : list A) :
  List.filter (fun x => inSet (nameSet names) (f x)) l
  = filter (fun x => f x ∈ names) l.
Proof.
  induction l as [|x l IH]; simpl; [done|].
  rewrite inSet_nameSet, IH, filter_cons.
  destruct (decide (f x ∈ names)).
  - by rewrite bool_decide_eq_true_2.
  - by rewrite bool_decide_eq_false_2.
Qed.

End Filters.

(** X1. [FilterChains] with an empty list of names keeps every chain; with
    a non-empty list it keeps exactly the chains whose name is listed, in
    their configured order. Filtering twice by the same names changes
    nothing more. *)
Theorem X1_FilterChains_keeps_listed_chains :
  forall (chains : list ChainConfig.t) (chainNames : list string),
    Ingester.FilterChains chains chainNames
    = (if decide (chainNames = []) then chains
       else filter (fun chain => ChainConfig.Name chain ∈ chainNames) chains)
    /\ Ingester.FilterChains (Ingester.FilterChains chains chainNames) chainNames
       = Ingester.FilterChains chains chainNames.
Proof.
  intros chains chainNames.
  assert (forall cs, Ingester.FilterChains cs chainNames
                     = if decide (chainNames = []) then cs
                       else filter (fun chain => ChainConfig.Name chain ∈ chainNames) cs)
    as Hspec.
  { intros cs. unfold Ingester.FilterChains.
    destruct chainNames as [|n names]; [done|].
    rewrite decide_False by done. apply filter_inSet. }
  split; [apply Hspec|].
  rewrite !Hspec. destruct (decide (chainNames = [])); [done|].
  apply list_filter_filter_l. done.
Qed.

(** X2. [FilterModules] with an empty list of names changes nothing; with
    a non-empty list it keeps every chain, in order and with its other
    settings, and leaves each chain exactly its modules that are listed, in
    their configured order. *)
Theorem X2_FilterModules_keeps_listed_modules :
  forall (chains : list ChainConfig.t) (moduleNames : list string),
    Ingester.FilterModules chains moduleNames
    = (if decide (moduleNames = []) then chains
       else (fun chain =>
               Ingester.withModules chain
                 (filter (fun module => module ∈ moduleNames)
                         (ChainConfig.Modules chain))) <$> chains)
    /\ ChainConfig.Name <$> Ingester.FilterModules chains moduleNames
       = ChainConfig.Name <$> chains
    /\ ChainConfig.Enabled <$> Ingester.FilterModules chains moduleNames
       = ChainConfig.Enabled <$> chains.
Proof.
  intros chains moduleNames.
  assert (Ingester.FilterModules chains moduleNames
          = if decide (moduleNames = []) then chains
            else (fun chain =>
                    Ingester.withModules chain
                      (filter (fun module => module ∈ moduleNames)
                              (ChainConfig.Modules chain))) <$> chains) as Hspec.
  { unfold Ingester.FilterModules.
    destruct moduleNames as [|n names]; [done|].
    rewrite decide_False by done.
    induction chains as [|c chains IH]; simpl; [done|].
    f_equal; [|apply IH].
    f_equal. apply (filter_inSet (fun module : string => module)). }
  split; [exact Hspec|]. rewrite Hspec.
  destruct (decide (moduleNames = [])); [done|].
  rewrite <- !list_fmap_compose. split; by apply list_fmap_ext.
Qed.

(** ** More on the polling cycle *)

Section CycleMore.
Import Storage Ingester.

Lemma ingestModule_not_staking (w : ChainWorker) (m m1 : Manager.t) (h now : Z)
    (module failure : string) (logs : list LogEntry) (err : option error) :
  module <> "staking" ->
  ingestModule w m h now module = Some (failure, (m1, logs, err)) ->
  m1 = m.
Proof.
  intros Hne. unfold ingestModule.
  repeat (case_match; [intros [= _ Hmod]; revert Hmod|]); [..|done].
  - unfold ingestBankModule. by repeat case_match; intros [= <- _ _].
  - by apply String.eqb_eq in H0.
  - by intros <-.
  - unfold ingestGovernanceModule. by case_match; intros [= <- _ _].
  - by intros <-.
  - by intros <-.
Qed.

Lemma ingestModules_not_staking (w : ChainWorker) (h now : Z) (modules : list string) :
  "staking" ∉ modules ->
  forall (m m' : Manager.t) (logs : list LogEntry) (err : option error),
    ingestModules w m h now modules = (m', logs, err) -> m' = m.
Proof.
  induction modules as [|module rest IH]; intros Hnot m m' logs err; simpl.
  - by intros [= <- _ _].
  - apply not_elem_of_cons in Hnot as [Hne Hrest].
    destruct (ingestModule w m h now module) as [[failure [[m1 logs1] e]]|] eqn:Hmod.
    + apply ingestModule_not_staking in Hmod as ->; [|done].
      destruct e as [e|]; [by intros [= <- _ _]|].
      destruct (ingestModules w m h now rest) as [[m2 logs2] err2] eqn:Hr.
      intros [= <- _ _]. by eapply IH.
    + destruct (ingestModules w m h now rest) as [[m2 logs2] err2] eqn:Hr.
      intros [= <- _ _]. by eapply IH.
Qed.




End CycleMore.

(** X3. A chain that answers an empty validator list never ingests
    anything: every cycle ends with the error of [GetLatestHeight] before a
    module is run, and the storage manager is left as it was. *)
Theorem X3_cycle_without_validators_is_refused :
  forall (w : Ingester.ChainWorker) (m : Manager.t) (now : Z),
    Client.stakingValidators (Ingester.client w) "" = Ok [] ->
    Ingester.ingestChainState w m now
    = (m, [ {| lvl := Debug; msg := "Ingesting chain state"; fields := [] |} ],
       Some "failed to get latest height: no validators found").
Proof.
  intros w m now Hvs.
  unfold Ingester.ingestChainState, Client.GetLatestHeight, Client.GetValidators.
  by rewrite Hvs.
Qed.

Lemma X3_cycle_without_validators_is_refused_witness :
  let w := Scenario.workerWith ["staking"; "bank"] (Scenario.clientWith (Ok []) (Ok [])) in
  Ingester.ingestChainState w Scenario.emptyManager 1700000001
  = (Scenario.emptyManager,
     [ {| lvl := Debug; msg := "Ingesting chain state"; fields := [] |} ],
     Some "failed to get latest height: no validators found").
Proof.
  intros w.
  apply (X3_cycle_without_validators_is_refused w Scenario.emptyManager 1700000001).
  reflexivity.
Defined.

(** X4. Only the staking module writes to the store: a cycle of a chain
    whose configured modules do not include [staking] leaves every table
    as it was, whether the cycle succeeds or fails. *)
Theorem X4_cycle_without_staking_writes_nothing :
  forall (w : Ingester.ChainWorker) (m : Manager.t) (now : Z),
    "staking" ∉ ChainConfig.Modules (Ingester.chainCfg w) ->
    Storage.db (Manager.postgres (fst (fst (Ingester.ingestChainState w m now))))
    = Storage.db (Manager.postgres m).
Proof.
  intros w m now Hnot. unfold Ingester.ingestChainState.
  destruct (Client.GetLatestHeight (Ingester.client w)) as [h|e]; [|done].
  unfold Manager.BeginTx, Storage.BeginTx.
  destruct (Storage.fault (Manager.postgres m) Storage.BeginStmt); [done|].
  destruct (Ingester.ingestModules w m h now (ChainConfig.Modules (Ingester.chainCfg w)))
    as [[m1 logs] err] eqn:Hmods.
  apply ingestModules_not_staking in Hmods as ->; [|done].
  destruct err as [e|]; [done|].
  unfold Manager.Commit, Storage.Commit. simpl.
  by destruct (Storage.fault (Manager.postgres m) Storage.CommitStmt).
Qed.

Lemma X4_cycle_without_staking_writes_nothing_witness :
  let w := Scenario.workerWith ["bank"; "governance"]
             (Scenario.clientWith (Ok [Scenario.chainValidator "valoper1" 42]) (Ok [])) in
  Storage.db (Manager.postgres
                (fst (fst (Ingester.ingestChainState w Scenario.emptyManager 1700000001))))
  = Storage.db (Manager.postgres Scenario.emptyManager).
Proof.
  intros w.
  apply (X4_cycle_without_staking_writes_nothing w Scenario.emptyManager 1700000001).
  vm_compute. intros Hin.
  repeat (apply elem_of_cons in Hin as [Hin|Hin]; [discriminate|]).
  by apply elem_of_nil in Hin.
Defined.



(** X6. A module name the cycle has no arm for is skipped, not an error:
    the loop over the configured modules ends with the same store and the
    same error as the loop over the known module names among them. *)
Theorem X6_unknown_modules_are_skipped :
  forall (w : Ingester.ChainWorker) (h now : Z) (modules : list string) (m : Manager.t),
    fst (fst (Ingester.ingestModules w m h now modules))
    = fst (fst (Ingester.ingestModules w m h now
                  (filter (fun module => module ∈ knownModules) modules)))
    /\ snd (Ingester.ingestModules w m h now modules)
       = snd (Ingester.ingestModules w m h now
                (filter (fun module => module ∈ knownModules) modules)).
Proof.
  intros w h now modules. induction modules as [|module rest IH]; intros m; [done|].
  rewrite filter_cons. destruct (decide (module ∈ knownModules)) as [Hin|Hnot].
  - simpl.
    destruct (Ingester.ingestModule w m h now module) as [[failure [[m1 logs1] [e|]]]|];
      [done| |].
    + destruct (IH m1) as [IH1 IH2].
      destruct (Ingester.ingestModules w m1 h now rest) as [[m2 l2] e2].
      by destruct (Ingester.ingestModules w m1 h now _) as [[m3 l3] e3].
    + destruct (IH m) as [IH1 IH2].
      destruct (Ingester.ingestModules w m h now rest) as [[m2 l2] e2].
      by destruct (Ingester.ingestModules w m h now _) as [[m3 l3] e3].
  - assert (Ingester.ingestModule w m h now module = None) as Hnone.
    { unfold Ingester.ingestModule.
      repeat (case_match;
              [exfalso; apply Hnot;
               match goal with H : String.eqb _ _ = true |- _ =>
                 apply String.eqb_eq in H; subst module end;
               unfold knownModules; repeat constructor|]).
      done. }
    simpl. rewrite Hnone.
    destruct (IH m) as [IH1 IH2].
    by destruct (Ingester.ingestModules w m h now rest) as [[m2 l2] e2].
Qed.

(** ** More on the store *)

Section StoreMore.
Import Storage Work.

Lemma upsert_balance_row_other (now : Z) (b : Balance.t) (k : string * string * string)
    (t : gmap (string * string * string) Balance.t) :
  balance_key b <> k -> upsert_balance_row now b t !! k = t !! k.
Proof.
  intros Hne. unfold upsert_balance_row.
  destruct (t !! balance_key b); by rewrite lookup_insert_ne.
Qed.



#[global] Instance byDenom_total : Total byDenom.
Proof.
  intros a b. unfold byDenom.
  destruct (String.leb_total (Balance.Denom a) (Balance.Denom b)) as [->| ->];
    [by left|by right].
Qed.

#[global] Instance byDenom_dec (a b : Balance.t) : Decision (byDenom a b).
Proof. unfold byDenom. apply _. Defined.

End StoreMore.

(** X7. Committing one balance touches that balance's row only: every
    other balance row and every other table is as before; and when the
    commit reports an error the store is exactly as it was. *)
Theorem X7_commitBalance_touches_one_row :
  forall (s s' : Storage.PostgresStore) (b : Balance.t) (err : option error),
    Work.commitBalance s b = (s', err) ->
    (forall k, Storage.balance_key b <> k ->
               Storage.balances (Storage.db s') !! k = Storage.balances (Storage.db s) !! k)
    /\ Storage.accounts (Storage.db s') = Storage.accounts (Storage.db s)
    /\ Storage.delegations (Storage.db s') = Storage.delegations (Storage.db s)
    /\ Storage.validators (Storage.db s') = Storage.validators (Storage.db s)
    /\ (err <> None -> s' = s).
Proof.
  intros s s' b err. unfold Work.commitBalance, Storage.BeginTx, Storage.UpsertBalance,
    Storage.ExecContext, Storage.Commit, Storage.Rollback.
  destruct (Storage.fault s Storage.BeginStmt); [by intros [= <- <-]|].
  destruct (Storage.fault s (Storage.InsertBalance b)); [by intros [= <- <-]|].
  destruct (Storage.fault s Storage.CommitStmt); [by intros [= <- <-]|].
  intros [= <- <-]. simpl. repeat split; try done.
  intros k Hne. by apply upsert_balance_row_other.
Qed.

Lemma X7_commitBalance_touches_one_row_witness :
  let b := Scenario.balanceOf "osmosis" "2500000" 50 in
  let s := fst (Work.commitBalance Scenario.emptyStore
                  (Scenario.balanceOf "cosmoshub" "1000000" 101)) in
  Storage.balances (Storage.db (fst (Work.commitBalance s b)))
    !! ("cosmoshub", "addrX", "uatom")
  = Storage.balances (Storage.db s) !! ("cosmoshub", "addrX", "uatom").
Proof.
  intros b s.
  apply (proj1 (X7_commitBalance_touches_one_row s (fst (Work.commitBalance s b)) b
                  (snd (Work.commitBalance s b)) ltac:(vm_compute; reflexivity))).
  vm_compute. discriminate.
Defined.



Lemma GetBalances_elem (s : Storage.PostgresStore) (chainName address : string)
    (rows : list Balance.t) (b : Balance.t) :
  Storage.GetBalances s chainName address = Ok rows ->
  b ∈ rows
  <-> (exists k, Storage.balances (Storage.db s) !! k = Some b)
      /\ Balance.ChainName b = chainName /\ Balance.Address b = address.
Proof.
  unfold Storage.GetBalances.
  destruct (Storage.fault s (Storage.SelectBalances chainName address)); [done|].
  intros [= <-]. rewrite (merge_sort_Permutation byDenom).
  rewrite list_elem_of_filter, list_elem_of_fmap. split.
  - intros [[Hc Ha] [[k b'] [-> Hin]]]. apply elem_of_map_to_list in Hin.
    split; [by exists k|done].
  - intros [[k Hk] [Hc Ha]]. split; [done|].
    exists (k, b). split; [done|]. by apply elem_of_map_to_list.
Qed.




(** ** More on the listener *)

Section Prefixes.
Import Listener.

Lemma substring_whole (s : string) : String.substring 0 (String.length s) s = s.
Proof. induction s as [|a s IH]; simpl; [done|]. by rewrite IH. Qed.

Lemma hasPrefix_spec (p s : string) :
  hasPrefix (String.length p) p s = true
  <-> exists rest, rest <> "" /\ s = p +:+ rest.
Proof.
  unfold hasPrefix. rewrite andb_true_iff, Nat.ltb_lt, String.eqb_eq.
  revert s. induction p as [|a p IH]; intros s; simpl.
  - split.
    + intros [Hlen _]. exists s. split; [|done]. intros ->. simpl in Hlen. lia.
    + intros (rest & Hne & ->). split; [|by destruct rest].
      destruct rest; [done|simpl; lia].
  - destruct s as [|b s]; simpl.
    + split; [intros [Hlen _]; lia|]. by intros (rest & _ & ?).
    + split.
      * intros [Hlen [= -> Hsub]].
        destruct (proj1 (IH s)) as (rest & Hne & ->); [split; [lia|done]|].
        by exists rest.
      * intros (rest & Hne & [= -> ->]).
        destruct (proj2 (IH (p +:+ rest))) as [Hlen Hsub]; [by exists rest|].
        split; [lia|]. by rewrite Hsub.
Qed.

Lemma dropPrefix_app (p rest : string) :
  dropPrefix (String.length p) (p +:+ rest) = rest.
Proof.
  unfold dropPrefix. induction p as [|a p IH]; simpl.
  - rewrite Nat.sub_0_r. apply substring_whole.
  - exact IH.
Qed.

Lemma dispatch_store (lw : ListenerWorker) (m : Manager.t) (change : StateChange) :
  fst (fst (dispatch lw m change)) = m.
Proof.
  unfold dispatch, processBankStateChange, processStakingStateChange.
  by repeat case_match.
Qed.

Lemma receiveAll_store (lw : ListenerWorker) (received : list StateChange) :
  forall m : Manager.t, fst (receiveAll lw m received) = m.
Proof.
  induction received as [|change rest IH]; intros m; simpl; [done|].
  unfold processStateChange.
  pose proof (dispatch_store lw m change) as Hm.
  destruct (dispatch lw m change) as [[m1 logs1] [e|]]; simpl in Hm; subst m1;
    specialize (IH m); by destruct (receiveAll lw m rest).
Qed.

End Prefixes.

(** X11. The listener worker never writes to the store: whatever changes
    it receives, the storage manager after its loop is the one it started
    with. Processing one change fails exactly for a [bank] change whose key
    is [balances/] followed by at least one more byte, and the error is then
    always "invalid balance key format". *)
Theorem X11_listener_never_writes :
  forall (lw : Listener.ListenerWorker) (m : Manager.t),
    (forall received : list Listener.StateChange,
        fst (Listener.start lw m received) = m)
    /\ (forall change : Listener.StateChange,
          snd (Listener.processStateChange lw m change)
          = if decide (Listener.StoreKey change = "bank"
                       /\ Listener.hasPrefix 9 "balances/" (Listener.Key change) = true)
            then Some "invalid balance key format" else None)
    /\ (forall key : string,
          Listener.hasPrefix 9 "balances/" key = true
          <-> exists rest, rest <> "" /\ key = "balances/" +:+ rest).
Proof.
  intros lw m. split; [|split].
  - intros received. unfold Listener.start.
    pose proof (receiveAll_store lw received m) as H.
    by destruct (Listener.receiveAll lw m received).
  - intros change. unfold Listener.processStateChange, Listener.dispatch.
    destruct (String.eqb (Listener.StoreKey change) "bank") eqn:Hbank.
    + apply String.eqb_eq in Hbank. unfold Listener.processBankStateChange.
      destruct (Listener.hasPrefix 9 "balances/" (Listener.Key change)) eqn:Hp.
      * by rewrite decide_True.
      * rewrite decide_False by (by intros [_ ?]).
        destruct (Listener.hasPrefix 7 "supply/" (Listener.Key change)); reflexivity.
    + rewrite decide_False.
      2:{ intros [Heq _]. apply String.eqb_neq in Hbank. done. }
      unfold Listener.processStakingStateChange.
      repeat match goal with
             | |- context [if ?b then _ else _] => destruct b
             end; reflexivity.
  - intros key. apply (hasPrefix_spec "balances/").
Qed.

Section Bounds.
Import Listener.

Lemma trySend_bounded {A} (ch ch' : Chan.t A) (x : A) :
  Chan.trySend ch x = Some ch' -> bounded ch' /\ Chan.cap ch' = Chan.cap ch.
Proof.
  unfold Chan.trySend, Chan.full, bounded.
  destruct (Z.leb_spec (Chan.cap ch) (Z.of_nat (length (Chan.buf ch)))); [done|].
  intros [= <-]. simpl. rewrite length_app. simpl. split; [lia|done].
Qed.

Lemma routeOne_wellFormed (sl sl' : StateListener) (logs : list LogEntry) :
  wellFormed sl -> routeOne sl = Some (sl', logs) ->
  wellFormed sl'
  /\ dom (workers sl') = dom (workers sl)
  /\ S (length (Chan.buf (stateChanges sl'))) = length (Chan.buf (stateChanges sl)).
Proof.
  intros [Hq Hw]. unfold routeOne, Chan.tryRecv.
  destruct (Chan.buf (stateChanges sl)) as [|x rest] eqn:Hbuf; [done|].
  assert (bounded {| Chan.cap := Chan.cap (stateChanges sl); Chan.buf := rest |}) as Hq'.
  { unfold bounded in *. rewrite Hbuf in Hq. simpl in *. lia. }
  destruct (workers sl !! ChainName x) as [wk|] eqn:Hwk.
  - destruct (Chan.trySend (changes wk) x) as [wch|] eqn:Hsend.
    + intros [= <- _]. simpl. split; [split; [done|]|split; [|done]].
      * intros c w. simpl. destruct (decide (ChainName x = c)) as [<-|Hne].
        -- rewrite lookup_insert_eq. intros [= <-]. simpl.
           by apply trySend_bounded in Hsend as [? _].
        -- rewrite lookup_insert_ne by done. apply Hw.
      * apply dom_insert_lookup_L. by eexists.
    + intros [= <- _]. simpl. by repeat split.
  - intros [= <- _]. simpl. by repeat split.
Qed.

Lemma routeN_wellFormed (n : nat) :
  forall sl : StateListener,
    wellFormed sl -> (length (Chan.buf (stateChanges sl)) <= n)%nat ->
    wellFormed (fst (routeN n sl))
    /\ dom (workers (fst (routeN n sl))) = dom (workers sl)
    /\ Chan.buf (stateChanges (fst (routeN n sl))) = [].
Proof.
  induction n as [|n IH]; intros sl Hwf Hlen.
  - simpl. repeat split; try apply Hwf.
    destruct (Chan.buf (stateChanges sl)); [done|simpl in Hlen; lia].
  - destruct (routeOne sl) as [[sl' logs]|] eqn:Hroute.
    + rewrite (routeN_S _ _ _ _ Hroute).
      destruct (routeOne_wellFormed _ _ _ Hwf Hroute) as (Hwf' & Hdom & Hlen').
      destruct (IH sl' Hwf' ltac:(lia)) as (H1 & H2 & H3).
      repeat split; try apply H1; [|done]. by rewrite H2.
    + simpl. rewrite Hroute. simpl. repeat split; try apply Hwf.
      unfold routeOne, Chan.tryRecv in Hroute.
      destruct (Chan.buf (stateChanges sl)); [done|].
      by repeat case_match.
Qed.

Lemma Start_workers (chains : list ChainConfig.t) :
  forall (ws : gmap string ListenerWorker),
    let ws' := foldl (fun ws chain =>
                        if ChainConfig.Enabled chain
                        then <[ChainConfig.Name chain := createWorker chain]> ws
                        else ws) ws chains in
    (forall name w,
        ws' !! name = Some w ->
        ws !! name = Some w
        \/ exists chain, chain ∈ chains /\ ChainConfig.Enabled chain = true
                         /\ ChainConfig.Name chain = name /\ w = createWorker chain)
    /\ (forall name, is_Some (ws !! name) -> is_Some (ws' !! name))
    /\ (forall chain, chain ∈ chains -> ChainConfig.Enabled chain = true ->
                      is_Some (ws' !! ChainConfig.Name chain)).
Proof.
  induction chains as [|c chains IH]; intros ws; simpl.
  - split; [by left|]. split; [done|]. intros chain Hin. by apply elem_of_nil in Hin.
  - destruct (IH (if ChainConfig.Enabled c
                  then <[ChainConfig.Name c := createWorker c]> ws else ws))
      as (IH1 & IH2 & IH3).
    split; [|split].
    + intros name w Hw. destruct (IH1 name w Hw) as [Hold|(chain & Hin & He & Hn & ->)].
      * destruct (ChainConfig.Enabled c) eqn:He; [|by left].
        destruct (decide (ChainConfig.Name c = name)) as [Hn|Hn].
        -- rewrite Hn, lookup_insert_eq in Hold. injection Hold as <-.
           right. exists c. split; [by left|done].
        -- rewrite lookup_insert_ne in Hold by done. by left.
      * right. exists chain. split; [by right|done].
    + intros name Hsome. apply IH2. destruct (ChainConfig.Enabled c); [|done].
      destruct (decide (ChainConfig.Name c = name)) as [Hn|Hn].
      * rewrite Hn, lookup_insert_eq. by eexists.
      * by rewrite lookup_insert_ne.
    + intros chain Hin He. apply elem_of_cons in Hin as [->|Hin]; [|by apply IH3].
      apply IH2. rewrite He, lookup_insert_eq. by eexists.
Qed.

End Bounds.



(** X13. Routing empties the listener's queue and neither adds nor removes
    a worker: after [processStateChanges] on a listener within bounds, the
    state-change channel is empty and the registered chains are the same. *)
Theorem X13_routing_drains_the_queue :
  forall sl : Listener.StateListener,
    wellFormed sl ->
    Chan.buf (Listener.stateChanges (fst (Listener.processStateChanges sl))) = []
    /\ dom (Listener.workers (fst (Listener.processStateChanges sl)))
       = dom (Listener.workers sl).
Proof.
  intros sl Hwf. unfold Listener.processStateChanges.
  by destruct (routeN_wellFormed _ sl Hwf (Nat.le_refl _)) as (_ & ? & ?).
Qed.

Lemma X13_routing_drains_the_queue_witness :
  Chan.buf (Listener.stateChanges
              (fst (Listener.processStateChanges Scenario.fullListener))) = []
  /\ dom (Listener.workers (fst (Listener.processStateChanges Scenario.fullListener)))
     = dom (Listener.workers Scenario.fullListener).
Proof.
  apply (X13_routing_drains_the_queue Scenario.fullListener).
  split; [|intros c w Hc; cbn in Hc; by rewrite lookup_empty in Hc].
  unfold bounded. vm_compute. discriminate.
Defined.

(** X14. [Start] registers a worker for every enabled chain of the
    configuration and for no other chain: after it, each enabled chain has
    a worker, a worker already registered stays registered, and every
    worker is either one that was there before or a fresh one, with an
    empty channel of capacity 1000, made for an enabled chain of that
    name. *)
Theorem X14_Start_registers_enabled_chains :
  forall sl : Listener.StateListener,
    (forall chain, chain ∈ Listener.chains sl -> ChainConfig.Enabled chain = true ->
                   is_Some (Listener.workers (Listener.Start sl) !! ChainConfig.Name chain))
    /\ (forall name w,
          Listener.workers (Listener.Start sl) !! name = Some w ->
          Listener.workers sl !! name = Some w
          \/ (exists chain,
                 chain ∈ Listener.chains sl /\ ChainConfig.Enabled chain = true
                 /\ ChainConfig.Name chain = name
                 /\ Listener.chainName w = name
                 /\ Listener.changes w = {| Chan.cap := 1000; Chan.buf := [] |}))
    /\ Listener.stateChanges (Listener.Start sl) = Listener.stateChanges sl.
Proof.
  intros sl.
  destruct (Start_workers (Listener.chains sl) (Listener.workers sl)) as (H1 & _ & H3).
  split; [exact H3|]. split; [|done].
  intros name w Hw. destruct (H1 name w Hw) as [Hold|(chain & Hin & He & Hn & ->)];
    [by left|].
  right. exists chain. by repeat split.
Qed.

Lemma X14_Start_registers_enabled_chains_witness :
  is_Some (Listener.workers
             (Listener.Start (Listener.NewStateListener [Scenario.hubConfig]))
             !! "cosmoshub").
Proof.
  apply (proj1 (X14_Start_registers_enabled_chains
                  (Listener.NewStateListener [Scenario.hubConfig])) Scenario.hubConfig).
  - apply elem_of_cons. by left.
  - reflexivity.
Defined.

(** ** Waiting for a height *)


(** ** More on the resolver *)

(** X16. [Chain] finds a chain exactly when its name is one of the chains
    that [CrossChainAccount] aggregates: for such a name it returns the
    chain of that name, for any other name the error
    "chain not found: <name>". *)
Theorem X16_Chain_finds_the_aggregated_chains :
  forall (r : Graphql.Resolver) (now : Z) (name : string),
    match Graphql.ChainQuery r now name with
    | Ok chain => Graphql.Name chain = name /\ name ∈ Graphql.configuredChains
    | Err e => e = "chain not found: " +:+ name /\ name ∉ Graphql.configuredChains
    end.
Proof.
  intros r now name. unfold Graphql.ChainQuery, Graphql.ChainsQuery,
    Graphql.configuredChains. cbn [Graphql.findChain Graphql.Name].
  destruct (String.eqb "cosmoshub" name) eqn:H1.
  { apply String.eqb_eq in H1 as <-. split; [done|]. by left. }
  destruct (String.eqb "osmosis" name) eqn:H2.
  { apply String.eqb_eq in H2 as <-. split; [done|]. right. by left. }
  apply String.eqb_neq in H1, H2. split; [done|].
  intros Hin. repeat (apply elem_of_cons in Hin as [Hin|Hin]; [congruence|]).
  by apply elem_of_nil in Hin.
Qed.



(** X18. A successful [Account] query echoes the requested chain and
    address, and its balances are exactly the stored balance rows of that
    chain and address, in the order of their denominations. *)
Theorem X18_Account_returns_the_address_rows :
  forall (r : Graphql.Resolver) (address chain : string) (st : AccountState.t),
    fst (Graphql.Account r address chain) = Ok st ->
    AccountState.ChainName st = chain
    /\ AccountState.Address st = address
    /\ Sorted byDenom (AccountState.Balances st)
    /\ (forall b : Balance.t,
           b ∈ AccountState.Balances st
           <-> (exists k, Storage.balances (Storage.db (Manager.postgres (Graphql.storage r)))
                            !! k = Some b)
               /\ Balance.ChainName b = chain /\ Balance.Address b = address).
Proof.
  intros r address chain st. unfold Graphql.Account.
  destruct (Storage.GetBalances (Manager.Postgres (Graphql.storage r)) chain address)
    as [balances|e] eqn:Hb; [|done].
  destruct (Storage.GetDelegations (Manager.Postgres (Graphql.storage r)) chain address)
    as [delegations|e]; [|done].
  intros [= <-]. simpl. split; [done|]. split; [done|]. split.
  - unfold Storage.GetBalances in Hb.
    destruct (Storage.fault _ _); [done|]. injection Hb as <-.
    apply (Sorted_merge_sort byDenom).
  - intros b. by apply GetBalances_elem.
Qed.

Lemma X18_Account_returns_the_address_rows_witness :
  exists st,
    fst (Graphql.Account Scenario.twoChainResolver "addrX" "osmosis") = Ok st
    /\ AccountState.ChainName st = "osmosis" /\ AccountState.Address st = "addrX".
Proof.
  eexists. split; [vm_compute; reflexivity|].
  match goal with |- AccountState.ChainName ?st = _ /\ _ =>
    destruct (X18_Account_returns_the_address_rows Scenario.twoChainResolver
                "addrX" "osmosis" st ltac:(vm_compute; reflexivity)) as (H1 & H2 & _)
  end.
  by split.
Defined.

(** X19. The REST account endpoints refuse a request without a chain with
    status 400 before the store is asked, whatever state the store is in.
    For a named chain, the state endpoint answers 200 with exactly the
    account state the GraphQL [Account] query returns, and 500 when that
    query fails; and the balances and delegations endpoints answer with the
    very lists that the state endpoint puts in its body. *)
Theorem X19_rest_account_endpoints_agree :
  forall (m : Manager.t) (address chainName : string),
    let s := {| Api.storage := m |} in
    let r := {| Graphql.storage := m |} in
    if String.eqb chainName "" then
      fst (Api.getAccountState s address chainName)
      = (400, Api.ErrorBody "chain parameter is required")
      /\ fst (Api.getAccountBalances s address chainName)
         = (400, Api.ErrorBody "chain parameter is required")
      /\ fst (Api.getAccountDelegations s address chainName)
         = (400, Api.ErrorBody "chain parameter is required")
    else
      match fst (Graphql.Account r address chainName) with
      | Ok st =>
          fst (Api.getAccountState s address chainName) = (200, Api.StateBody st)
          /\ fst (Api.getAccountBalances s address chainName)
             = (200, Api.BalancesBody chainName address (AccountState.Balances st))
          /\ fst (Api.getAccountDelegations s address chainName)
             = (200, Api.DelegationsBody chainName address (AccountState.Delegations st))
      | Err _ =>
          fst (Api.getAccountState s address chainName)
          = (500, Api.ErrorBody "failed to get account state")
      end.
Proof.
  intros m address chainName s r.
  unfold Api.getAccountState, Api.getAccountBalances, Api.getAccountDelegations,
    Graphql.Account.
  destruct (String.eqb chainName ""); [done|]. simpl.
  destruct (Storage.GetBalances (Manager.Postgres m) chainName address); [|done].
  by destruct (Storage.GetDelegations (Manager.Postgres m) chainName address).
Qed.

(** ** More on the aggregation *)

Section Totals.
Import Graphql.

Lemma addAmount_lookup (denom amount d : string) (totals : gmap string string) :
  addAmount denom amount totals !! d
  = if decide (denom = d) then plusStep (totals !! denom) amount else totals !! d.
Proof.
  unfold addAmount, plusStep. destruct (decide (denom = d)) as [<-|Hne].
  - destruct (totals !! denom); by rewrite lookup_insert_eq.
  - destruct (totals !! denom); by rewrite lookup_insert_ne.
Qed.

Lemma addBalances_lookup (d : string) (balances : list Balance.t) :
  forall totals : gmap string string,
    addBalances balances totals !! d
    = foldl plusStep (totals !! d)
        (Balance.Amount <$> filter (fun b => Balance.Denom b = d) balances).
Proof.
  unfold addBalances. induction balances as [|b bs IH]; intros totals; simpl; [done|].
  rewrite IH, addAmount_lookup, filter_cons.
  destruct (decide (Balance.Denom b = d)) as [<-|Hne]; done.
Qed.

Lemma localsOf_lookup (d : string) (states : list (string * AccountState.t)) :
  forall l : Locals,
    totalBalanceMap (foldl (fun l cs => addChain (fst cs) (snd cs) l) l states) !! d
    = foldl plusStep (totalBalanceMap l !! d) (amountsOf d states).
Proof.
  unfold amountsOf. induction states as [|[c st] states IH]; intros l; simpl; [done|].
  rewrite IH. simpl. by rewrite addBalances_lookup, foldl_app.
Qed.

Lemma totalOf_toSlice (d : string) (totals : gmap string string) :
  totalOf d (toSlice totals) = totals !! d.
Proof.
  unfold totalOf, toSlice.
  destruct (list_find _ _) as [[i da]|] eqn:Hfind.
  - apply list_find_Some in Hfind as (Hi & Hd & _).
    apply list_elem_of_lookup_2, list_elem_of_fmap in Hi as ([k v] & -> & Hin).
    apply elem_of_map_to_list in Hin. simpl in *. by subst k.
  - apply list_find_None in Hfind.
    destruct (totals !! d) as [a|] eqn:Hd; [|done].
    apply elem_of_map_to_list in Hd.
    rewrite Forall_forall in Hfind.
    exfalso. apply (Hfind {| Denom := d; Amount := a |}); [|done].
    apply list_elem_of_fmap. by exists (d, a).
Qed.

Lemma addDelegations_dom (delegations : list Delegation.t) :
  forall totals : gmap string string,
    dom totals ⊆ {["stake"]} -> dom (addDelegations delegations totals) ⊆ {["stake"]}.
Proof.
  unfold addDelegations. induction delegations as [|x ds IH]; intros totals Hdom; simpl;
    [done|].
  apply IH. unfold addAmount.
  destruct (totals !! "stake"); rewrite dom_insert_L; by apply union_least.
Qed.

Lemma localsOf_delegated_dom (states : list (string * AccountState.t)) :
  forall l : Locals,
    dom (totalDelegatedMap l) ⊆ {["stake"]} ->
    dom (totalDelegatedMap (foldl (fun l cs => addChain (fst cs) (snd cs) l) l states))
    ⊆ {["stake"]}.
Proof.
  induction states as [|[c st] states IH]; intros l Hdom; simpl; [done|].
  apply IH. simpl. by apply addDelegations_dom.
Qed.

End Totals.

(** X20. The total that the aggregation reports for a denomination is the
    list of the amounts held in it on the fetched chains, in request order,
    joined by plus signs; no total is reported for a denomination that no
    fetched chain holds, and a denomination held by a single balance is
    reported with exactly that balance's amount. *)
Theorem X20_total_is_the_amounts_joined :
  forall (r : Graphql.Resolver) (address : string) (chains : list string) (denom : string),
    match fst (Graphql.crossChainAccountOf r address chains) with
    | Ok st =>
        Graphql.totalOf denom (Graphql.TotalBalance (Graphql.Totals st))
        = plusJoin (amountsOf denom (fetched r address chains))
    | Err _ => False
    end
    /\ (plusJoin (amountsOf denom (fetched r address chains)) = None
        <-> amountsOf denom (fetched r address chains) = [])
    /\ (forall amount, amountsOf denom (fetched r address chains) = [amount] ->
                       plusJoin (amountsOf denom (fetched r address chains))
                       = Some amount).
Proof.
  intros r address chains denom. split; [|split].
  - unfold Graphql.crossChainAccountOf.
    destruct (overChains_spec r address chains
                {| Graphql.chainStates := []; Graphql.totalBalanceMap := ∅;
                   Graphql.totalDelegatedMap := ∅ |}) as [Hl _].
    destruct (Graphql.overChains r address chains _) as [l logs]. simpl in *. subst l.
    rewrite totalOf_toSlice, localsOf_lookup. simpl. by rewrite lookup_empty.
  - unfold plusJoin. destruct (amountsOf denom (fetched r address chains)) as [|a l];
      [done|]. simpl. split; [|done].
    assert (forall l o, foldl plusStep (Some o) l <> None) as Hsome.
    { clear. induction l as [|x l IH]; intros o; simpl; [done|]. apply IH. }
    intros H. by apply Hsome in H.
  - by intros amount ->.
Qed.

(** X21. Delegations are totalled under the single denomination [stake]:
    the aggregation reports at most one delegated total, named [stake]; it
    never reports an unbonding total; and its rewards figure is five
    hundredths per delegated total, so either 0 or 0.05. *)
Theorem X21_delegated_totals_shape :
  forall (r : Graphql.Resolver) (address : string) (chains : list string),
    match fst (Graphql.crossChainAccountOf r address chains) with
    | Ok st =>
        (forall da, da ∈ Graphql.TotalDelegated (Graphql.Totals st) ->
                    Graphql.Denom da = "stake")
        /\ (length (Graphql.TotalDelegated (Graphql.Totals st)) <= 1)%nat
        /\ Graphql.TotalUnbonding (Graphql.Totals st) = []
        /\ (Graphql.TotalRewards (Graphql.Totals st) = 0
            \/ Graphql.TotalRewards (Graphql.Totals st) = 5)
    | Err _ => False
    end.
Proof.
  intros r address chains. unfold Graphql.crossChainAccountOf.
  destruct (overChains_spec r address chains
              {| Graphql.chainStates := []; Graphql.totalBalanceMap := ∅;
                 Graphql.totalDelegatedMap := ∅ |}) as [Hl _].
  destruct (Graphql.overChains r address chains _) as [l logs]. simpl in *. subst l.
  pose proof (localsOf_delegated_dom (fetched r address chains)
                {| Graphql.chainStates := []; Graphql.totalBalanceMap := ∅;
                   Graphql.totalDelegatedMap := ∅ |}
                ltac:(simpl; rewrite dom_empty_L; apply empty_subseteq)) as Hdom.
  set (totals := Graphql.totalDelegatedMap _) in *.
  assert (length (Graphql.toSlice totals) <= 1)%nat as Hlen.
  { unfold Graphql.toSlice. rewrite length_fmap, length_map_to_list.
    rewrite <- size_dom. etrans; [by apply subseteq_size|].
    by rewrite size_singleton. }
  split; [|split; [done|split; [done|]]].
  - intros da Hin. unfold Graphql.toSlice in Hin.
    apply list_elem_of_fmap in Hin as ([k v] & -> & Hin).
    apply elem_of_map_to_list in Hin. simpl.
    assert (k ∈ dom totals) as Hk by (apply elem_of_dom; by eexists).
    apply Hdom in Hk. by apply elem_of_singleton in Hk.
  - destruct (Graphql.toSlice totals) as [|x [|y rest]]; simpl in *; [by left|by right|lia].
Qed.

(** ** One row per denomination *)

Section Keyed.
Import Storage.



End Keyed.



Lemma X20_total_is_the_amounts_joined_witness :
  plusJoin (amountsOf "uatom" (fetched Scenario.twoChainResolver "addrX" ["osmosis"]))
  = Some "2500000".
Proof.
  apply (proj2 (proj2 (X20_total_is_the_amounts_joined Scenario.twoChainResolver
                         "addrX" ["osmosis"] "uatom"))).
  vm_compute. reflexivity.
Defined.
